(** * BiteBack backend ([backend/server.js]): a shallow embedding

    The server is a thin orchestration layer around four outside services:
    the remote news API (axios), the [News] collection (mongoose), the
    identity provider (firebase-admin) and the mail relay (nodemailer).
    Each route handler is embedded as a computation in a small state and
    exception monad over a [World] holding the collection and a trace of
    every outside call and console line; what the outside services answer
    during one run is read from an [Env] record. *)

From Stdlib Require Import ZArith Lia SpecFloat.
From stdpp Require Import base strings list sorting pretty.

Set Warnings "-register-all".

Local Open Scope string_scope.
Local Open Scope list_scope.
Local Open Scope Z_scope.

(** ** JavaScript values, as far as the server looks at them *)

Module Js.

(** A JavaScript number is a double: signed zeros, infinities, NaN and the
    finite values [m * 2^e]. *)
Abbreviation Number := spec_float.

(** JSON-shaped values: what [express.json()] and axios hand to the code.
    An object is the list of its own properties, the first binding of a key
    being the live one; none of them is a function. *)
Inductive JsVal : Type :=
| JUndefined
| JNull
| JBool (b : bool)
| JNum (n : Number)
| JStr (s : string)
| JArr (items : list JsVal)
| JObj (props : list (string * JsVal)).

Abbreviation Obj := (list (string * JsVal)).

(** The errors a handler can catch: a [TypeError] raised by the language
    itself, a document the schema turns down, or the rejection of a promise
    by an outside service. *)
Inductive Error : Type :=
| TypeError (msg : string)
| ValidationError (msg : string)
| ServiceError (msg : string).

Definition message (e : Error) : string :=
  match e with TypeError m => m | ValidationError m => m | ServiceError m => m end.

Inductive Outcome (A : Type) : Type :=
| Return (a : A)
| Throw (e : Error).
Arguments Return {A} a.
Arguments Throw {A} e.

(** Sequencing of pure computations that may throw *)
Definition and_then {A B} (o : Outcome A) (k : A -> Outcome B) : Outcome B :=
  match o with
  | Return a => k a
  | Throw e => Throw e
  end.

Notation "'let+' x ':=' o 'in' k" := (and_then o (fun x => k))
  (at level 10, x pattern, o at level 100, k at level 200).

(** The number [n] of a length *)
Definition number_of_nat (n : nat) : Number :=
  match n with
  | O => S754_zero false
  | S k => S754_finite false (Pos.of_succ_nat k) 0
  end.

Definition zero : Number := S754_zero false.

(** [o.key] on an object literal / destructuring [{ key } = o] *)
Fixpoint own (o : Obj) (key : string) : JsVal :=
  match o with
  | [] => JUndefined
  | (k, v) :: rest => if String.eqb k key then v else own rest key
  end.

(** The object has an own property of that name *)
Fixpoint has_own (o : Obj) (key : string) : bool :=
  match o with
  | [] => false
  | (k, _) :: rest => String.eqb k key || has_own rest key
  end.

(** [v.key] for the property names the server reads ([articles], [length],
    [title], [description], [url], [urlToImage], [publishedAt]): reading a
    property of [undefined] or [null] throws, primitives and arrays have
    none of these names except [length]. *)
Definition prop (v : JsVal) (key : string) : Outcome JsVal :=
  match v with
  | JUndefined =>
      Throw (TypeError ("Cannot read properties of undefined (reading '" +:+ key +:+ "')"))
  | JNull =>
      Throw (TypeError ("Cannot read properties of null (reading '" +:+ key +:+ "')"))
  | JObj o => Return (own o key)
  | JArr l =>
      Return (if String.eqb key "length" then JNum (number_of_nat (length l)) else JUndefined)
  | JStr s =>
      Return (if String.eqb key "length" then JNum (number_of_nat (String.length s))
              else JUndefined)
  | JBool _ | JNum _ => Return JUndefined
  end.

(** ToBoolean: what [!v] and [if (v)] look at. Both zeros and NaN are
    falsy. *)
Definition truthy (v : JsVal) : bool :=
  match v with
  | JUndefined | JNull => false
  | JBool b => b
  | JNum (S754_zero _) | JNum S754_nan => false
  | JNum _ => true
  | JStr s => negb (String.eqb s "")
  | JArr _ | JObj _ => true
  end.

(** [v === 0]: true of both zeros *)
Definition is_zero (v : JsVal) : bool :=
  match v with JNum (S754_zero _) => true | _ => false end.

(** ToString, as used by template literals [`${v}`]. [print] stands for the
    engine's printing of a number. An object is converted through its
    [toString]: the inherited one gives "[object Object]", an own property
    of that name is no function and the conversion throws. A list joins
    the conversions of its entries. *)
Fixpoint ToString (print : Number -> string) (v : JsVal) : Outcome string :=
  match v with
  | JUndefined => Return "undefined"
  | JNull => Return "null"
  | JBool true => Return "true"
  | JBool false => Return "false"
  | JNum n => Return (print n)
  | JStr s => Return s
  | JArr items =>
      (fix join (l : list JsVal) : Outcome string :=
         match l with
         | [] => Return ""
         | x :: rest =>
             let+ sx := match x with
                        | JUndefined | JNull => Return ""
                        | _ => ToString print x
                        end in
             match rest with
             | [] => Return sx
             | _ :: _ => let+ more := join rest in Return (sx +:+ "," +:+ more)
             end
         end) items
  | JObj o =>
      if has_own o "toString"
      then Throw (TypeError "Cannot convert object to primitive value")
      else Return "[object Object]"
  end.

(** [process.env.NAME] inside a template literal *)
Definition env_text (v : option string) : string :=
  match v with Some s => s | None => "undefined" end.

(** [s.split(sep)] for a one-character separator *)
Fixpoint split (sep : Ascii.ascii) (s : string) : list string :=
  match s with
  | EmptyString => [EmptyString]
  | String c rest =>
      if Ascii.eqb c sep then EmptyString :: split sep rest
      else match split sep rest with
           | piece :: pieces => String c piece :: pieces
           | [] => [String c EmptyString]
           end
  end.

(** A [Date] object: a time value in milliseconds, or [Invalid Date] *)
Inductive Date : Type :=
| ValidDate (ms : Z)
| InvalidDate.

(** TimeClip of the language standard on a number: beyond 8.64e15
    milliseconds, or without a finite value, the date is invalid; a
    fraction is cut off. *)
Definition TimeClip (n : Number) : Date :=
  match n with
  | S754_zero _ => ValidDate 0
  | S754_finite neg m e =>
      let whole := if 0 <=? e then Z.pos m * 2 ^ e else Z.pos m / 2 ^ (- e) in
      let exact := if 0 <=? e then true else Z.pos m mod 2 ^ (- e) =? 0 in
      if (whole <? 8640000000000000) || ((whole =? 8640000000000000) && exact)
      then ValidDate (if neg then - whole else whole)
      else InvalidDate
  | S754_infinity _ | S754_nan => InvalidDate
  end.

(** [new Date(v)] with one argument; [parse] stands for [Date.parse] on
    strings, which the language leaves largely to the engine. An object or
    a list is first converted to a primitive, which ends in its [toString]
    and throws where that one does. *)
Definition newDate (parse : string -> Date) (print : Number -> string) (v : JsVal)
  : Outcome Date :=
  match v with
  | JUndefined => Return InvalidDate
  | JNull => Return (ValidDate 0)
  | JBool b => Return (ValidDate (if b then 1 else 0))
  | JNum n => Return (TimeClip n)
  | JStr s => Return (parse s)
  | JArr _ | JObj _ =>
      let+ text := ToString print v in
      Return (parse text)
  end.

End Js.
Export Js.
(** ** Data model *)

(** One document of the [News] collection. A field the document was built
    without is [JUndefined]. The storage-assigned key is left out: no route
    reads it. *)
Record Article : Type := mkArticle {
  title : JsVal;
  description : JsVal;
  url : JsVal;
  imageUrl : JsVal;
  publishedAt : Date
}.

(** What the JavaScript engine does on its own account: [Date.parse] and
    the printing of numbers *)
Record Engine : Type := mkEngine {
  Date_parse : string -> Date;
  Number_toString : Number -> string
}.

(** *** [NewsSchema] (lines 30-36)

    Every document passes the schema before it reaches the store: the four
    text paths are cast to strings, the date path takes a valid date only.
    A value a path cannot cast makes the document invalid. *)

(** The [String] path: [null] and a missing value stay, a string is taken
    as it is, a number or boolean is printed, an object counts for its
    [_id] when that is a non-empty string; any other object and every list
    is turned down. *)
Definition cast_String (print : Number -> string) (path : string) (v : JsVal)
  : Outcome JsVal :=
  let refuse := Throw (ValidationError ("News validation failed: " +:+ path)) in
  match v with
  | JUndefined | JNull | JStr _ => Return v
  | JNum n => Return (JStr (print n))
  | JBool true => Return (JStr "true")
  | JBool false => Return (JStr "false")
  | JArr _ => refuse
  | JObj o =>
      match own o "_id" with
      | JStr s => if String.eqb s "" then refuse else Return (JStr s)
      | _ => refuse
      end
  end.

(** The [Date] path, given a [Date] object *)
Definition cast_Date (path : string) (d : Date) : Outcome Date :=
  match d with
  | ValidDate _ => Return d
  | InvalidDate => Throw (ValidationError ("News validation failed: " +:+ path))
  end.

(** The document as the store receives it *)
Definition NewsSchema (print : Number -> string) (doc : Article) : Outcome Article :=
  let+ t := cast_String print "title" (title doc) in
  let+ d := cast_String print "description" (description doc) in
  let+ u := cast_String print "url" (url doc) in
  let+ i := cast_String print "imageUrl" (imageUrl doc) in
  let+ p := cast_Date "publishedAt" (publishedAt doc) in
  Return {| title := t; description := d; url := u; imageUrl := i; publishedAt := p |}.

(** [process.env], as far as the routes read it *)
Record Config : Type := mkConfig {
  NEWS_API_KEY : option string;
  EMAIL_USER : option string
}.

(** The [mailOptions] object handed to the transporter *)
Record MailOptions : Type := mkMailOptions {
  mail_from : option string;
  mail_to : option string;
  mail_subject : string;
  mail_text : string
}.

(** What [res.status(..).json(..)] sends *)
Inductive Payload : Type :=
| MessagePayload (message : string)
| ErrorPayload (error : string)
| NewsPayload (news : list Article).

Record Response : Type := mkResponse {
  status : Z;
  payload : Payload
}.

(** The request, after [express.json()] has parsed the body into an object *)
Record Request : Type := mkRequest {
  authorization : option string;
  body : Obj;
  user : option JsVal
}.

(** Everything a handler does to the outside, in program order *)
Inductive Event : Type :=
| ConsoleLog (line : string)
| ConsoleErrorMessage (label : string) (msg : string)
| ConsoleErrorObject (label : string) (e : Error)
| AxiosGet (address : string)
| DeleteMany
| InsertMany (docs : list Article)
| FindSorted
| Save (doc : Article)
| VerifyIdToken (token : string)
| SendMail (options : MailOptions).

(** The process-wide state: the collection, and the trace of events *)
Record World : Type := mkWorld {
  News : list Article;
  trace : list Event
}.

(** The answers of the outside services during one run of a handler. An
    answer of [Some e] / [inl e] is a rejected promise. A store operation
    that is rejected leaves the collection as it was. The store is asked
    only for documents that passed the schema. *)
Record Env : Type := mkEnv {
  axios_answer : Error + JsVal;
  deleteMany_answer : option Error;
  insertMany_answer : option Error;
  find_answer : option Error;
  save_answer : option Error;
  verifyIdToken_answer : string -> Error + JsVal;
  sendMail_answer : option Error;
  now : Z
}.

(** ** The handler monad: state, exceptions, try/catch *)

Definition M (A : Type) : Type := World -> Outcome A * World.

Definition ret {A} (a : A) : M A := fun w => (Return a, w).

Definition throw {A} (e : Error) : M A := fun w => (Throw e, w).

Definition bind {A B} (m : M A) (k : A -> M B) : M B :=
  fun w =>
    match m w with
    | (Return a, w') => k a w'
    | (Throw e, w') => (Throw e, w')
    end.

Definition try_catch {A} (m : M A) (handler : Error -> M A) : M A :=
  fun w =>
    match m w with
    | (Return a, w') => (Return a, w')
    | (Throw e, w') => handler e w'
    end.

Definition lift {A} (o : Outcome A) : M A := fun w => (o, w).

Definition emit (e : Event) : M unit :=
  fun w => (Return tt, {| News := News w; trace := trace w ++ [e] |}).

Definition set_News (docs : list Article) : M unit :=
  fun w => (Return tt, {| News := docs; trace := trace w |}).

Definition get_News : M (list Article) := fun w => (Return (News w), w).

Definition settle (answer : option Error) : M unit :=
  match answer with
  | Some e => throw e
  | None => ret tt
  end.

Notation "'let*' x ':=' m 'in' k" := (bind m (fun x => k))
  (at level 10, x pattern, m at level 100, k at level 200).

Fixpoint traverse {A B} (f : A -> Outcome B) (l : list A) : Outcome (list B) :=
  match l with
  | [] => Return []
  | x :: rest =>
      let+ y := f x in
      let+ ys := traverse f rest in
      Return (y :: ys)
  end.

(** [v.map(f)]: only an array has a [map] method *)
Definition array_map {B} (what : string) (v : JsVal) (f : JsVal -> Outcome B)
  : Outcome (list B) :=
  match v with
  | JArr items => traverse f items
  | JUndefined =>
      Throw (TypeError "Cannot read properties of undefined (reading 'map')")
  | JNull =>
      Throw (TypeError "Cannot read properties of null (reading 'map')")
  | _ => Throw (TypeError (what +:+ ".map is not a function"))
  end.

(** ** Order of [find().sort({ publishedAt: -1 })] *)

(** Dates by time value; an invalid date ranks below every valid one. *)
Definition date_leb (a b : Date) : bool :=
  match a, b with
  | InvalidDate, _ => true
  | ValidDate _, InvalidDate => false
  | ValidDate x, ValidDate y => x <=? y
  end.

(** [newest_first a b]: [a] may stand before [b] in a descending listing *)
Definition newest_first (a b : Article) : Prop :=
  date_leb (publishedAt b) (publishedAt a) = true.

#[global] Instance newest_first_dec : RelDecision newest_first.
Proof. intros a b. unfold newest_first. apply _. Defined.

Definition sort_desc (docs : list Article) : list Article :=
  merge_sort newest_first docs.

(** ** The routes of [server.js] *)

Section Server.

(** The engine, the process environment, and the answers of the outside
    services during the run at hand *)
Variable engine : Engine.
Variable cfg : Config.
Variable env : Env.

(** *** Outside calls *)

Definition console_log (line : string) : M unit := emit (ConsoleLog line).

(** [await axios.get(address)]: the response object, of which the code
    reads [data] only *)
Definition axios_get (address : string) : M JsVal :=
  let* _ := emit (AxiosGet address) in
  match axios_answer env with
  | inl e => throw e
  | inr data => ret (JObj [("data", data)])
  end.

(** [await News.deleteMany()] *)
Definition News_deleteMany : M unit :=
  let* _ := emit DeleteMany in
  let* _ := settle (deleteMany_answer env) in
  set_News [].

(** [await News.insertMany(docs)]: every document is cast and validated
    first, and one invalid document rejects the call before the store is
    asked. *)
Definition News_insertMany (docs : list Article) : M unit :=
  let* _ := emit (InsertMany docs) in
  let* valid := lift (traverse (NewsSchema (Number_toString engine)) docs) in
  let* _ := settle (insertMany_answer env) in
  let* old := get_News in
  set_News (old ++ valid).

(** [await News.find().sort({ publishedAt: -1 })] *)
Definition News_find_sorted : M (list Article) :=
  let* _ := emit FindSorted in
  let* _ := settle (find_answer env) in
  let* docs := get_News in
  ret (sort_desc docs).

(** [await doc.save()] on a document made by [new News(..)]: the values
    are cast by the schema, and an invalid document rejects the save
    before the store is asked. *)
Definition News_save (doc : Article) : M unit :=
  let* _ := emit (Save doc) in
  let* valid := lift (NewsSchema (Number_toString engine) doc) in
  let* _ := settle (save_answer env) in
  let* old := get_News in
  set_News (old ++ [valid]).

(** [await admin.auth().verifyIdToken(token)] *)
Definition verifyIdToken (token : string) : M JsVal :=
  let* _ := emit (VerifyIdToken token) in
  match verifyIdToken_answer env token with
  | inl e => throw e
  | inr decoded => ret decoded
  end.

(** [await transporter.sendMail(options)] *)
Definition sendMail (options : MailOptions) : M unit :=
  let* _ := emit (SendMail options) in
  settle (sendMail_answer env).

(** [res.status(code).json(payload)]; [res.json] alone sends 200 *)
Definition respond (code : Z) (p : Payload) : M Response :=
  ret {| status := code; payload := p |}.

(** *** Middleware: [verifyToken] (lines 50-61) *)

(** [req.headers.authorization?.split(" ")[1]] *)
Definition bearer_token (req : Request) : option string :=
  match authorization req with
  | None => None
  | Some header => nth_error (split Ascii.Space header) 1
  end.

(** [!token] *)
Definition token_missing (token : option string) : bool :=
  match token with
  | None => true
  | Some t => String.eqb t ""
  end.

(** A middleware either answers the request itself or calls [next()] *)
Inductive Passed : Type :=
| Answered (res : Response)
| Next (req : Request).

Definition verifyToken (req : Request) : M Passed :=
  try_catch
    (let token := bearer_token req in
     if token_missing token then
       let* res := respond 401 (ErrorPayload "Unauthorized") in
       ret (Answered res)
     else
       let* decodedToken := verifyIdToken (default "" token) in
       ret (Next {| authorization := authorization req;
                    body := body req;
                    user := Some decodedToken |}))
    (fun error =>
       let* res := respond 403 (ErrorPayload "Invalid token") in
       ret (Answered res)).

(** [app.post(path, verifyToken, handler)]. The handler is an async
    function started by [next()]: what it throws is its own rejection, not
    an exception inside the middleware's [try] block. *)
Definition guarded (handler : Request -> M Response) (req : Request) : M Response :=
  let* passed := verifyToken req in
  match passed with
  | Answered res => ret res
  | Next req' => handler req'
  end.

(** *** [GET /api/news] (lines 64-71) *)

Definition get_api_news : M Response :=
  try_catch
    (let* news := News_find_sorted in
     respond 200 (NewsPayload news))
    (fun error => respond 500 (ErrorPayload "Failed to fetch news")).

(** *** The sync run: manual trigger (lines 74-101) and timer (104-131) *)

Definition NEWS_ADDRESS : string :=
  "https://newsapi.org/v2/everything?q=orphans&apiKey=" +:+ env_text (NEWS_API_KEY cfg).

(** [!articles || articles.length === 0] *)
Definition no_articles (articles : JsVal) : Outcome bool :=
  if negb (truthy articles) then Return true
  else
    let+ len := prop articles "length" in
    Return (is_zero len).

(** The arrow function given to [articles.map] *)
Definition to_article (article : JsVal) : Outcome Article :=
  let+ t := prop article "title" in
  let+ d := prop article "description" in
  let+ u := prop article "url" in
  let+ i := prop article "urlToImage" in
  let+ p := prop article "publishedAt" in
  let+ date := newDate (Date_parse engine) (Number_toString engine) p in
  Return {| title := t;
            description := d;
            url := u;
            imageUrl := i;
            publishedAt := date |}.

Definition get_api_fetch_news : M Response :=
  try_catch
    (let* _ := console_log "Fetching latest news..." in
     let* response := axios_get NEWS_ADDRESS in
     let* data := lift (prop response "data") in
     let* articles := lift (prop data "articles") in
     let* none := lift (no_articles articles) in
     if (none : bool) then respond 404 (MessagePayload "No news found")
     else
       let* latestNews := lift (array_map "response.data.articles" articles to_article) in
       let* _ := News_deleteMany in
       let* _ := News_insertMany latestNews in
       respond 200 (MessagePayload "News fetched and saved successfully!"))
    (fun error =>
       let* _ := emit (ConsoleErrorMessage "Error fetching news:" (message error)) in
       respond 500 (ErrorPayload "Failed to fetch news")).

Definition cron_fetch_news : M unit :=
  let* _ := console_log "Running scheduled news update..." in
  try_catch
    (let* response := axios_get NEWS_ADDRESS in
     let* data := lift (prop response "data") in
     let* articles := lift (prop data "articles") in
     let* none := lift (no_articles articles) in
     if (none : bool) then console_log "No new articles found."
     else
       let* latestNews := lift (array_map "response.data.articles" articles to_article) in
       let* _ := News_deleteMany in
       let* _ := News_insertMany latestNews in
       console_log "News updated successfully!")
    (fun error =>
       emit (ConsoleErrorMessage "Error fetching news:" (message error))).

(** *** [POST /api/news] (lines 134-144) *)

Definition post_api_news_handler (req : Request) : M Response :=
  try_catch
    (let newNews := {| title := own (body req) "title";
                       description := own (body req) "description";
                       url := own (body req) "url";
                       imageUrl := own (body req) "imageUrl";
                       publishedAt := ValidDate (now env) |} in
     let* _ := News_save newNews in
     respond 201 (MessagePayload "News added successfully!"))
    (fun error => respond 500 (ErrorPayload "Failed to add news")).

Definition post_api_news : Request -> M Response :=
  guarded post_api_news_handler.

(** *** [POST /send-message] (lines 147-168) *)

Definition newline : string := String (Ascii.ascii_of_nat 10) EmptyString.

(** The template literals of [mailOptions]: the subject first, then the
    text, each field converted where it stands *)
Definition mail_for (name email message : JsVal) : Outcome MailOptions :=
  let text := ToString (Number_toString engine) in
  let+ subject_name := text name in
  let+ text_name := text name in
  let+ text_email := text email in
  let+ text_message := text message in
  Return {| mail_from := EMAIL_USER cfg;
            mail_to := EMAIL_USER cfg;
            mail_subject := "New Volunteer Message from " +:+ subject_name;
            mail_text := "Name: " +:+ text_name +:+ newline +:+
                         "Email: " +:+ text_email +:+ newline +:+ newline +:+
                         "Message:" +:+ newline +:+ text_message |}.

(** The object literal stands before the [try]: what it throws leaves the
    handler without an answer sent. *)
Definition post_send_message (req : Request) : M Response :=
  let name := own (body req) "name" in
  let email := own (body req) "email" in
  let message := own (body req) "message" in
  if negb (truthy name) || negb (truthy email) || negb (truthy message) then
    respond 400 (ErrorPayload "All fields are required.")
  else
    let* mailOptions := lift (mail_for name email message) in
    try_catch
      (let* _ := sendMail mailOptions in
       respond 200 (MessagePayload "Message sent successfully!"))
      (fun error =>
         let* _ := emit (ConsoleErrorObject "Error sending email:" error) in
         respond 500 (ErrorPayload "Failed to send message.")).

(** *** The sync run as one shared operation with two thin triggers

    The specification asks for the fetch-normalize-replace logic to be one
    operation that both triggers invoke. These definitions follow that
    wording; they are compared with the two handlers above. *)

Inductive SyncReport : Type :=
| Synced
| NoNews
| Failed (e : Error).

(** Normalization of the upstream body: [None] when it holds no article *)
Definition normalize (data : JsVal) : Outcome (option (list Article)) :=
  let+ articles := prop data "articles" in
  let+ none := no_articles articles in
  if (none : bool) then Return None
  else
    let+ latestNews := array_map "response.data.articles" articles to_article in
    Return (Some latestNews).

Definition sync_routine : M SyncReport :=
  try_catch
    (let* response := axios_get NEWS_ADDRESS in
     let* data := lift (prop response "data") in
     let* found := lift (normalize data) in
     match found with
     | None => ret NoNews
     | Some latestNews =>
         let* _ := News_deleteMany in
         let* _ := News_insertMany latestNews in
         ret Synced
     end)
    (fun error => ret (Failed error)).

Definition manual_trigger : M Response :=
  let* _ := console_log "Fetching latest news..." in
  let* report := sync_routine in
  match report with
  | Synced => respond 200 (MessagePayload "News fetched and saved successfully!")
  | NoNews => respond 404 (MessagePayload "No news found")
  | Failed error =>
      let* _ := emit (ConsoleErrorMessage "Error fetching news:" (message error)) in
      respond 500 (ErrorPayload "Failed to fetch news")
  end.

Definition timer_trigger : M unit :=
  let* _ := console_log "Running scheduled news update..." in
  let* report := sync_routine in
  match report with
  | Synced => console_log "News updated successfully!"
  | NoNews => console_log "No new articles found."
  | Failed error =>
      emit (ConsoleErrorMessage "Error fetching news:" (message error))
  end.

End Server.

(** ** Observations on a run *)

Definition is_console (e : Event) : bool :=
  match e with
  | ConsoleLog _ | ConsoleErrorMessage _ _ | ConsoleErrorObject _ _ => true
  | _ => false
  end.

(** The calls to outside services in a trace, console lines dropped *)
Definition outside_calls (t : list Event) : list Event :=
  List.filter (fun e => negb (is_console e)) t.

Definition is_store_write (e : Event) : bool :=
  match e with
  | DeleteMany | InsertMany _ | Save _ => true
  | _ => false
  end.

Definition is_relay_call (e : Event) : bool :=
  match e with
  | SendMail _ => true
  | _ => false
  end.

Definition count_events (p : Event -> bool) (t : list Event) : nat :=
  length (List.filter p t).

(** The document the sync run builds from one remote article object; the
    timestamp is the one member whose reading can throw. *)
Definition mapped (eng : Engine) (remote : Obj) : Outcome Article :=
  let+ date := newDate (Date_parse eng) (Number_toString eng) (own remote "publishedAt") in
  Return {| title := own remote "title";
            description := own remote "description";
            url := own remote "url";
            imageUrl := own remote "urlToImage";
            publishedAt := date |}.

(** The document as the schema hands it to the store *)
Definition stored (eng : Engine) : Article -> Outcome Article :=
  NewsSchema (Number_toString eng).

(** The value converts to a primitive: no object in it, at any depth of a
    list, has an own [toString]. *)
Fixpoint convertible (v : JsVal) : bool :=
  match v with
  | JObj o => negb (has_own o "toString")
  | JArr items =>
      (fix all (l : list JsVal) : bool :=
         match l with
         | [] => true
         | x :: rest => convertible x && all rest
         end) items
  | _ => true
  end.

(** The document [POST /api/news] builds from a request body *)
Definition submitted (env : Env) (o : Obj) : Article :=
  {| title := own o "title";
     description := own o "description";
     url := own o "url";
     imageUrl := own o "imageUrl";
     publishedAt := ValidDate (now env) |}.

(** An upstream body whose [articles] member is the given list of objects *)
Definition carries (data : JsVal) (remote : list Obj) : Prop :=
  prop data "articles" = Return (JArr (map JObj remote)).

(** The world after some more events, the collection set to [docs] *)
Definition extended (w : World) (docs : list Article) (es : list Event) : World :=
  {| News := docs; trace := trace w ++ es |}.

(** Descending order on the dates themselves *)
Definition later_or_same (a b : Date) : Prop := date_leb b a = true.

(** The publication dates of a listing, in order *)
Definition dates (docs : list Article) : list Date := publishedAt <$> docs.

(** ** Failures of a sync run *)

(** A malformed upstream body: there is no body at all, or its [articles]
    member is present and non-empty but not a list, or the list holds an
    entry that is [null] or [undefined], or an entry whose timestamp does
    not convert to a primitive. *)
Inductive Malformed : JsVal -> Prop :=
| NoBody data :
    data = JUndefined \/ data = JNull ->
    Malformed data
| NotAList data articles :
    prop data "articles" = Return articles ->
    truthy articles = true ->
    (forall items, articles <> JArr items) ->
    (forall len, prop articles "length" = Return len -> is_zero len = false) ->
    Malformed data
| NullEntry data items :
    prop data "articles" = Return (JArr items) ->
    In JUndefined items \/ In JNull items ->
    Malformed data
| UnreadableDate data items o :
    prop data "articles" = Return (JArr items) ->
    In (JObj o) items ->
    convertible (own o "publishedAt") = false ->
    Malformed data.

(** The ways a sync run fails, each with the store calls the run had made
    by then and whether the collection still holds its earlier documents. *)
Inductive SyncFailure (eng : Engine) (env : Env)
  : list Event -> bool -> Prop :=
| NetworkError e :
    axios_answer env = inl e ->
    SyncFailure eng env [] true
| MalformedResponse data :
    axios_answer env = inr data ->
    Malformed data ->
    SyncFailure eng env [] true
| DeleteRejected data docs e :
    axios_answer env = inr data ->
    normalize eng data = Return (Some docs) ->
    deleteMany_answer env = Some e ->
    SyncFailure eng env [DeleteMany] true
| InsertRejected data docs e :
    axios_answer env = inr data ->
    normalize eng data = Return (Some docs) ->
    deleteMany_answer env = None ->
    insertMany_answer env = Some e ->
    SyncFailure eng env [DeleteMany; InsertMany docs] false
| InsertInvalid data docs e :
    axios_answer env = inr data ->
    normalize eng data = Return (Some docs) ->
    deleteMany_answer env = None ->
    traverse (stored eng) docs = Throw e ->
    SyncFailure eng env [DeleteMany; InsertMany docs] false.

(** ** Sample runs

    Concrete requests, upstream bodies and service answers, used to run the
    handlers on. *)

Definition sample_parse (s : string) : Date :=
  if String.eqb s "2024-05-01T10:00:00Z" then ValidDate 1714557600000
  else if String.eqb s "2024-05-02T10:00:00Z" then ValidDate 1714644000000
  else InvalidDate.

(** Prints the whole numbers below 2^53 in decimal; the other numbers do
    not occur in the sample runs. *)
Definition sample_print (n : Number) : string :=
  match n with
  | S754_zero _ => "0"
  | S754_finite neg m 0 => (if neg then "-" else "") +:+ pretty (Z.pos m)
  | _ => "NaN"
  end.

Definition sample_engine : Engine :=
  {| Date_parse := sample_parse; Number_toString := sample_print |}.

Definition sample_cfg : Config :=
  {| NEWS_API_KEY := Some "k3y"; EMAIL_USER := Some "desk@biteback.example" |}.

Definition first_remote : Obj :=
  [("source", JObj [("id", JNull); ("name", JStr "Daily")]);
   ("title", JStr "Shelter opens");
   ("description", JStr "A new shelter opens its doors");
   ("url", JStr "https://news.example/shelter");
   ("urlToImage", JStr "https://news.example/shelter.png");
   ("publishedAt", JStr "2024-05-01T10:00:00Z")].

Definition second_remote : Obj :=
  [("title", JStr "Fundraiser");
   ("url", JStr "https://news.example/fundraiser");
   ("urlToImage", JNull);
   ("publishedAt", JStr "2024-05-02T10:00:00Z")].

Definition sample_feed (remote : list Obj) : JsVal :=
  JObj [("status", JStr "ok");
        ("totalResults", JNum (number_of_nat (length remote)));
        ("articles", JArr (map JObj remote))].

(** A well-formed body that has no [articles] member *)
Definition feed_without_list : JsVal :=
  JObj [("status", JStr "ok"); ("totalResults", JNum zero)].

(** The documents the two remote articles give *)
Definition first_doc : Article :=
  {| title := JStr "Shelter opens";
     description := JStr "A new shelter opens its doors";
     url := JStr "https://news.example/shelter";
     imageUrl := JStr "https://news.example/shelter.png";
     publishedAt := ValidDate 1714557600000 |}.

Definition second_doc : Article :=
  {| title := JStr "Fundraiser";
     description := JUndefined;
     url := JStr "https://news.example/fundraiser";
     imageUrl := JNull;
     publishedAt := ValidDate 1714644000000 |}.

(** A remote article that lacks its timestamp *)
Definition untimed_remote : Obj :=
  [("title", JStr "Untimed"); ("url", JStr "https://news.example/untimed")].

(** A remote article whose title is a number *)
Definition numbered_remote : Obj :=
  [("title", JNum (number_of_nat 42)); ("publishedAt", JStr "2024-05-01T10:00:00Z")].

Definition old_article : Article :=
  {| title := JStr "Last week";
     description := JUndefined;
     url := JStr "https://news.example/old";
     imageUrl := JUndefined;
     publishedAt := ValidDate 1713952800000 |}.

Definition sample_world : World := {| News := [old_article]; trace := [] |}.

Definition rejected : Error := ServiceError "connection lost".

(** Every service answers; the identity provider knows one token. *)
Definition calm_env (feed : Error + JsVal) : Env :=
  {| axios_answer := feed;
     deleteMany_answer := None;
     insertMany_answer := None;
     find_answer := None;
     save_answer := None;
     verifyIdToken_answer := fun token =>
       if String.eqb token "good-token" then inr (JObj [("uid", JStr "u1")])
       else inl (ServiceError "Decoding Firebase ID token failed");
     sendMail_answer := None;
     now := 1714700000000 |}.

(** As [calm_env], with the store rejecting the chosen operations *)
Definition stormy_env (feed : Error + JsVal) (del ins find save mail : option Error) : Env :=
  {| axios_answer := feed;
     deleteMany_answer := del;
     insertMany_answer := ins;
     find_answer := find;
     save_answer := save;
     verifyIdToken_answer := verifyIdToken_answer (calm_env feed);
     sendMail_answer := mail;
     now := now (calm_env feed) |}.

Definition bearer (token : string) (o : Obj) : Request :=
  {| authorization := Some ("Bearer " +:+ token); body := o; user := None |}.

Definition anonymous (o : Obj) : Request :=
  {| authorization := None; body := o; user := None |}.

Definition full_body : Obj :=
  [("title", JStr "Bake sale");
   ("description", JStr "Saturday at noon");
   ("url", JStr "https://biteback.example/bake");
   ("imageUrl", JStr "https://biteback.example/bake.png")].


Definition one_feed : JsVal := sample_feed [first_remote].

Definition two_feed : JsVal := sample_feed [first_remote; second_remote].

Definition env_synced : Env := calm_env (inr two_feed).

Definition env_empty_feed : Env := calm_env (inr (sample_feed [])).

Definition env_without_list : Env := calm_env (inr feed_without_list).

Definition env_delete_rejected : Env :=
  stormy_env (inr one_feed) (Some rejected) None None None None.

Definition env_insert_rejected : Env :=
  stormy_env (inr one_feed) None (Some rejected) None None None.

(** For the routes that never call the news API *)
Definition env_quiet : Env := calm_env (inl rejected).

Definition env_find_rejected : Env :=
  stormy_env (inl rejected) None None (Some rejected) None None.

Definition env_save_rejected : Env :=
  stormy_env (inl rejected) None None None (Some rejected) None.

Definition shuffled_world : World :=
  {| News := [old_article; second_doc; first_doc]; trace := [] |}.

Definition title_only : Obj := [("title", JStr "Only a title")].

Definition env_untimed : Env := calm_env (inr (sample_feed [untimed_remote])).

Definition env_numbered : Env := calm_env (inr (sample_feed [numbered_remote])).

(** A body whose title is an object, and one whose title is a number *)
Definition object_title : Obj := [("title", JObj [("a", JNum (number_of_nat 1))])].

Definition number_title : Obj := [("title", JNum (number_of_nat 123))].

(** A value that is truthy and has no text: its own [toString] is no
    function *)
Definition unprintable : JsVal := JObj [("toString", JNum (number_of_nat 1))].

(** ** Further observations *)

(** The string holds no space *)
Fixpoint no_space (s : string) : bool :=
  match s with
  | EmptyString => true
  | String c rest => negb (Ascii.eqb c Ascii.Space) && no_space rest
  end.

(** The request as [verifyToken] hands it on: [req.user] set *)
Definition identified (req : Request) (decoded : JsVal) : Request :=
  {| authorization := authorization req;
     body := body req;
     user := Some decoded |}.

(** The collection a sync run leaves behind, read off the answers of the
    outside and the collection it started from *)
Definition sync_store (eng : Engine) (env : Env) (prior : list Article)
  : list Article :=
  match axios_answer env with
  | inl _ => prior
  | inr data =>
      match normalize eng data with
      | Return (Some docs) =>
          match deleteMany_answer env with
          | Some _ => prior
          | None =>
              match traverse (stored eng) docs, insertMany_answer env with
              | Return valid, None => valid
              | _, _ => []
              end
          end
      | Return None | Throw _ => prior
      end
  end.

(** The hourly timer over a stretch of time: one run per tick, each with
    the answers the outside gives at that tick *)
Definition cron_runs (eng : Engine) (cfg : Config) (ticks : list Env) (w : World)
  : World :=
  fold_left (fun acc env => snd (cron_fetch_news eng cfg env acc)) ticks w.

(** The documents a feed of article objects puts into the store: each
    article mapped, then passed through the schema *)
Definition replacement (eng : Engine) (remote : list Obj) : Outcome (list Article) :=
  let+ docs := traverse (mapped eng) remote in
  traverse (stored eng) docs.

(** At this tick the news API answers with article objects that give the
    documents [valid], and the store accepts what it is asked *)
Definition healthy (eng : Engine) (env : Env) (valid : list Article) : Prop :=
  exists data remote,
    axios_answer env = inr data /\
    carries data remote /\
    replacement eng remote = Return valid /\
    deleteMany_answer env = None /\
    insertMany_answer env = None.

(** The collection after a run of healthy ticks: the documents of the last
    feed that held an article, or the earlier collection if none did *)
Definition latest_snapshot (feeds : list (list Article)) (prior : list Article)
  : list Article :=
  fold_left
    (fun acc valid =>
       match valid with
       | [] => acc
       | _ :: _ => valid
       end)
    feeds prior.

(** An identity provider that accepts no token at all *)
Definition env_locked : Env :=
  {| axios_answer := inl rejected;
     deleteMany_answer := None;
     insertMany_answer := None;
     find_answer := None;
     save_answer := None;
     verifyIdToken_answer := fun _ => inl (ServiceError "Decoding Firebase ID token failed");
     sendMail_answer := None;
     now := 1714700000000 |}.

Definition env_mail_rejected : Env :=
  stormy_env (inl rejected) None None None None (Some rejected).

Definition header_only (header : string) (o : Obj) : Request :=
  {| authorization := Some header; body := o; user := None |}.

(** The status a handler answered with *)
Definition status_of (o : Outcome Response) : option Z :=
  match o with
  | Return res => Some (status res)
  | Throw _ => None
  end.

(** A request whose header names another scheme and carries a third word *)
Definition posting_request : Request := header_only "Basic good-token extra" full_body.

(** The token alone, with no scheme word before it *)
Definition bare_request : Request := header_only "good-token" full_body.

(** An upstream answer that is a page of text instead of JSON *)
Definition env_text_body : Env := calm_env (inr (JStr "<html>Service unavailable</html>")).

Definition text_for_list : JsVal := JObj [("articles", JStr "none today")].

Definition env_text_for_list : Env := calm_env (inr text_for_list).

Definition env_one_article : Env := calm_env (inr one_feed).


(** What the store holds of a remote article object: each text member
    cast by the schema, the image taken from [urlToImage], the date read
    from the remote timestamp and valid *)
Definition snapshot_of (eng : Engine) (o : Obj) (v : Article) : Prop :=
  cast_String (Number_toString eng) "title" (own o "title") = Return (title v) /\
  cast_String (Number_toString eng) "description" (own o "description")
    = Return (description v) /\
  cast_String (Number_toString eng) "url" (own o "url") = Return (url v) /\
  cast_String (Number_toString eng) "imageUrl" (own o "urlToImage") = Return (imageUrl v) /\
  newDate (Date_parse eng) (Number_toString eng) (own o "publishedAt")
    = Return (publishedAt v) /\
  exists ms, publishedAt v = ValidDate ms.

(** What the store holds of a submitted body at the time [now] *)
Definition record_of (eng : Engine) (env : Env) (o : Obj) (v : Article) : Prop :=
  cast_String (Number_toString eng) "title" (own o "title") = Return (title v) /\
  cast_String (Number_toString eng) "description" (own o "description")
    = Return (description v) /\
  cast_String (Number_toString eng) "url" (own o "url") = Return (url v) /\
  cast_String (Number_toString eng) "imageUrl" (own o "imageUrl") = Return (imageUrl v) /\
  publishedAt v = ValidDate (now env).

(** Why [insertMany] fails on these documents, if it does: a document the
    schema turns down, or else the store's own rejection *)
Definition insert_failure (eng : Engine) (env : Env) (docs : list Article) : option Error :=
  match traverse (stored eng) docs with
  | Throw e => Some e
  | Return _ => insertMany_answer env
  end.

(** The [String] path of the schema takes the value *)
Definition castable (v : JsVal) : bool :=
  match v with
  | JArr _ => false
  | JObj o =>
      match own o "_id" with
      | JStr s => negb (String.eqb s "")
      | _ => false
      end
  | _ => true
  end.

(** What the store holds of [number_title], submitted in the quiet run *)
Definition submitted_number : Article :=
  {| title := JStr "123";
     description := JUndefined;
     url := JUndefined;
     imageUrl := JUndefined;
     publishedAt := ValidDate 1714700000000 |}.

(** A feed whose one article has a timestamp without a primitive value *)
Definition unreadable_feed : JsVal :=
  sample_feed [[("title", JStr "Untimed"); ("publishedAt", unprintable)]].

Definition env_unreadable : Env := calm_env (inr unreadable_feed).
(** * Properties *)

(** ** Basic facts *)

Lemma to_article_object eng (o : Obj) : to_article eng (JObj o) = mapped eng o.
Proof. reflexivity. Qed.

Lemma traverse_to_article eng (remote : list Obj) :
  traverse (to_article eng) (map JObj remote) = traverse (mapped eng) remote.
Proof.
  induction remote as [|o remote IH]; [reflexivity|].
  cbn [map traverse]. rewrite IH, to_article_object. reflexivity.
Qed.

Lemma traverse_length {A B} (f : A -> Outcome B) (l : list A) (out : list B) :
  traverse f l = Return out -> length out = length l.
Proof.
  revert out. induction l as [|x l IH]; intros out; cbn [traverse].
  - intros [= <-]. reflexivity.
  - destruct (f x) as [y|e]; cbn [and_then]; [|discriminate].
    destruct (traverse f l) as [ys|e]; cbn [and_then]; [|discriminate].
    intros [= <-]. cbn [length]. by rewrite (IH ys).
Qed.

Lemma traverse_Forall2 {A B} (f : A -> Outcome B) (l : list A) (out : list B) :
  traverse f l = Return out -> Forall2 (fun x y => f x = Return y) l out.
Proof.
  revert out. induction l as [|x l IH]; intros out; cbn [traverse].
  - intros [= <-]. constructor.
  - destruct (f x) as [y|e] eqn:Ex; cbn [and_then]; [|discriminate].
    destruct (traverse f l) as [ys|e]; cbn [and_then]; [|discriminate].
    intros [= <-]. constructor; [exact Ex | by apply IH].
Qed.

Lemma number_of_nat_zero n : is_zero (JNum (number_of_nat n)) = true <-> n = O.
Proof. destruct n; cbn; split; congruence. Qed.

Lemma normalize_carries eng data remote docs :
  carries data remote -> remote <> [] ->
  traverse (mapped eng) remote = Return docs ->
  normalize eng data = Return (Some docs).
Proof.
  unfold carries, normalize. intros -> Hne Hdocs.
  cbv beta iota delta [and_then no_articles truthy negb prop array_map].
  cbn [String.eqb Ascii.eqb Bool.eqb].
  rewrite length_map, traverse_to_article, Hdocs.
  destruct remote as [|o remote]; [congruence | reflexivity].
Qed.

(** Walks a sync handler along the answers of the outside: the fetch, the
    three steps of normalization, the delete, the schema, the insert. *)
Ltac walk_sync env data :=
  cbn;
  destruct (axios_answer env) as [?e|data]; cbn; [reflexivity|];
  destruct (prop data "articles") as [?articles|?e]; cbn; [|reflexivity];
  destruct (no_articles _) as [[|]|?e]; cbn; [reflexivity| |reflexivity];
  destruct (array_map _ _ _) as [?docs|?e]; cbn; [|reflexivity];
  unfold News_deleteMany, News_insertMany, settle, bind, lift, emit, set_News, get_News,
    throw, ret;
  cbn;
  destruct (deleteMany_answer env); cbn; [reflexivity|];
  destruct (traverse (NewsSchema _) _); cbn; [|reflexivity];
  destruct (insertMany_answer env); reflexivity.

Lemma manual_is_trigger eng cfg env w :
  get_api_fetch_news eng cfg env w = manual_trigger eng cfg env w.
Proof.
  unfold get_api_fetch_news, manual_trigger, sync_routine, normalize,
    try_catch, bind, lift, axios_get, console_log, emit, throw, ret, respond.
  walk_sync env data.
Qed.

Lemma cron_is_trigger eng cfg env w :
  cron_fetch_news eng cfg env w = timer_trigger eng cfg env w.
Proof.
  unfold cron_fetch_news, timer_trigger, sync_routine, normalize,
    try_catch, bind, lift, axios_get, console_log, emit, throw, ret.
  walk_sync env data.
Qed.

Lemma sync_routine_run eng cfg env w :
  sync_routine eng cfg env w =
  let fetch := AxiosGet (NEWS_ADDRESS cfg) in
  match axios_answer env with
  | inl e => (Return (Failed e), extended w (News w) [fetch])
  | inr data =>
      match normalize eng data with
      | Throw e => (Return (Failed e), extended w (News w) [fetch])
      | Return None => (Return NoNews, extended w (News w) [fetch])
      | Return (Some docs) =>
          match deleteMany_answer env with
          | Some e => (Return (Failed e), extended w (News w) [fetch; DeleteMany])
          | None =>
              match traverse (stored eng) docs with
              | Throw e =>
                  (Return (Failed e), extended w [] [fetch; DeleteMany; InsertMany docs])
              | Return valid =>
                  match insertMany_answer env with
                  | Some e =>
                      (Return (Failed e),
                       extended w [] [fetch; DeleteMany; InsertMany docs])
                  | None =>
                      (Return Synced,
                       extended w valid [fetch; DeleteMany; InsertMany docs])
                  end
              end
          end
      end
  end.
Proof.
  unfold sync_routine, try_catch, bind, lift, axios_get, emit, throw, ret, extended, stored.
  cbn.
  destruct (axios_answer env) as [e|data]; cbn; [reflexivity|].
  destruct (normalize eng data) as [[docs|]|e]; cbn; try reflexivity.
  unfold News_deleteMany, News_insertMany, settle, bind, lift, emit, set_News, get_News,
    throw, ret.
  cbn.
  destruct (deleteMany_answer env); cbn; [rewrite <- ?app_assoc; reflexivity|].
  destruct (traverse (NewsSchema _) docs); cbn; [|rewrite <- ?app_assoc; reflexivity].
  destruct (insertMany_answer env); cbn; rewrite <- ?app_assoc; reflexivity.
Qed.

Ltac run_manual :=
  rewrite manual_is_trigger;
  unfold manual_trigger, bind, console_log, emit, respond, ret;
  cbn [fst snd News trace];
  rewrite sync_routine_run; cbv zeta.

Ltac run_cron :=
  rewrite cron_is_trigger;
  unfold timer_trigger, bind, console_log, emit, respond, ret;
  cbn [fst snd News trace];
  rewrite sync_routine_run; cbv zeta.

Ltac tidy := unfold extended; cbn [fst snd News trace]; rewrite <- ?app_assoc; cbn [app].

Lemma normalize_empty eng data :
  prop data "articles" = Return (JArr []) -> normalize eng data = Return None.
Proof. unfold normalize. intros ->. reflexivity. Qed.
(** Claim C2. When the upstream body holds an empty [articles] list, the
    manual trigger answers 404 with the message "No news found" and the
    timer logs "No new articles found." and returns. Neither run touches
    the collection: its documents are the same afterwards, and the trace
    gains no [DeleteMany], [InsertMany] or [Save]. *)
Theorem empty_upstream_leaves_store eng cfg env w data :
  axios_answer env = inr data ->
  prop data "articles" = Return (JArr []) ->
  get_api_fetch_news eng cfg env w =
    (Return {| status := 404; payload := MessagePayload "No news found" |},
     extended w (News w)
       [ConsoleLog "Fetching latest news..."; AxiosGet (NEWS_ADDRESS cfg)]) /\
  cron_fetch_news eng cfg env w =
    (Return tt,
     extended w (News w)
       [ConsoleLog "Running scheduled news update..."; AxiosGet (NEWS_ADDRESS cfg);
        ConsoleLog "No new articles found."]) /\
  count_events is_store_write (trace (snd (get_api_fetch_news eng cfg env w))) =
    count_events is_store_write (trace w) /\
  count_events is_store_write (trace (snd (cron_fetch_news eng cfg env w))) =
    count_events is_store_write (trace w).
Proof.
  intros Hax Hdata.
  assert (Hm : get_api_fetch_news eng cfg env w =
    (Return {| status := 404; payload := MessagePayload "No news found" |},
     extended w (News w)
       [ConsoleLog "Fetching latest news..."; AxiosGet (NEWS_ADDRESS cfg)])).
  { run_manual. rewrite Hax, (normalize_empty _ _ Hdata). tidy. reflexivity. }
  assert (Hc : cron_fetch_news eng cfg env w =
    (Return tt,
     extended w (News w)
       [ConsoleLog "Running scheduled news update..."; AxiosGet (NEWS_ADDRESS cfg);
        ConsoleLog "No new articles found."])).
  { run_cron. rewrite Hax, (normalize_empty _ _ Hdata). tidy. reflexivity. }
  rewrite Hm, Hc. repeat split;
    unfold count_events, extended; cbn [snd trace];
    rewrite List.filter_app, length_app; cbn; lia.
Qed.

(** ** The order of the listing *)

Lemma date_leb_total a b : date_leb a b = true \/ date_leb b a = true.
Proof. destruct a, b; cbn; auto. lia. Qed.

Lemma date_leb_trans a b c :
  date_leb a b = true -> date_leb b c = true -> date_leb a c = true.
Proof. destruct a, b, c; cbn; auto; try discriminate. lia. Qed.

Lemma date_leb_antisym a b :
  date_leb a b = true -> date_leb b a = true -> a = b.
Proof. destruct a, b; cbn; auto; try discriminate. intros. f_equal. lia. Qed.

#[global] Instance newest_first_total : Total newest_first.
Proof. intros a b. unfold newest_first. destruct (date_leb_total (publishedAt a) (publishedAt b)); auto. Qed.

#[global] Instance newest_first_trans : Transitive newest_first.
Proof. intros a b c Hab Hbc. unfold newest_first in *. eauto using date_leb_trans. Qed.

#[global] Instance later_or_same_antisym : AntiSymm (=) later_or_same.
Proof. intros a b Hab Hba. unfold later_or_same in *. eauto using date_leb_antisym. Qed.

Lemma sort_desc_sorted docs : StronglySorted newest_first (sort_desc docs).
Proof. apply StronglySorted_merge_sort; apply _. Qed.

Lemma sort_desc_perm docs : sort_desc docs ≡ₚ docs.
Proof. apply merge_sort_Permutation. Qed.

Lemma sort_desc_dates docs docs' :
  docs ≡ₚ docs' -> dates (sort_desc docs) = dates (sort_desc docs').
Proof.
  intros Hp. unfold dates.
  apply (StronglySorted_unique later_or_same).
  - apply (StronglySorted_fmap _ newest_first); [auto | apply sort_desc_sorted].
  - apply (StronglySorted_fmap _ newest_first); [auto | apply sort_desc_sorted].
  - apply fmap_Permutation. rewrite !sort_desc_perm. exact Hp.
Qed.

(** Claim C5. Whatever documents the collection holds and in whatever
    order, [GET /api/news] answers 200 with all of them (a permutation of
    the collection) listed newest [publishedAt] first; two collections that
    are permutations of each other yield the same sequence of dates. When
    the read is rejected the answer is 500 with a generic error. The
    collection itself is left as it was. *)
Theorem news_listing_newest_first env w :
  (find_answer env = None ->
     get_api_news env w =
       (Return {| status := 200; payload := NewsPayload (sort_desc (News w)) |},
        extended w (News w) [FindSorted]) /\
     sort_desc (News w) ≡ₚ News w /\
     StronglySorted newest_first (sort_desc (News w)) /\
     (forall stored, stored ≡ₚ News w ->
        dates (sort_desc stored) = dates (sort_desc (News w)))) /\
  (forall e, find_answer env = Some e ->
     get_api_news env w =
       (Return {| status := 500; payload := ErrorPayload "Failed to fetch news" |},
        extended w (News w) [FindSorted])).
Proof.
  split.
  - intros Hfind. split; [|split; [|split]].
    + unfold get_api_news, News_find_sorted, try_catch, bind, emit, settle, get_News,
        respond, ret, extended. rewrite Hfind. reflexivity.
    + apply sort_desc_perm.
    + apply sort_desc_sorted.
    + intros stored Hp. by apply sort_desc_dates.
  - intros e Hfind.
    unfold get_api_news, News_find_sorted, try_catch, bind, emit, settle, get_News,
      respond, ret, throw, extended. rewrite Hfind. reflexivity.
Qed.

(** ** The sync run *)

Lemma outside_calls_app t es :
  outside_calls (t ++ es) = outside_calls t ++ outside_calls es.
Proof. apply List.filter_app. Qed.

(** Claim C4. The two sync paths differ in reporting only. Each handler
    is the shared fetch-normalize-replace operation [sync_routine] behind a
    thin trigger; for the same upstream answer and the same starting world
    they leave the same collection and make the same outside calls in the
    same order (same address fetched, same documents inserted, delete
    before insert), console lines apart. *)
Theorem sync_triggers_agree eng cfg env w :
  get_api_fetch_news eng cfg env w = manual_trigger eng cfg env w /\
  cron_fetch_news eng cfg env w = timer_trigger eng cfg env w /\
  News (snd (get_api_fetch_news eng cfg env w)) =
    News (snd (cron_fetch_news eng cfg env w)) /\
  outside_calls (trace (snd (get_api_fetch_news eng cfg env w))) =
    outside_calls (trace (snd (cron_fetch_news eng cfg env w))).
Proof.
  split; [apply manual_is_trigger|]. split; [apply cron_is_trigger|].
  run_manual. run_cron.
  destruct (axios_answer env) as [e|data].
  { tidy. rewrite !outside_calls_app. auto. }
  destruct (normalize eng data) as [[docs|]|e].
  - destruct (deleteMany_answer env) as [e|].
    { tidy. rewrite !outside_calls_app. auto. }
    destruct (traverse (stored eng) docs) as [valid|e].
    2: { tidy. rewrite !outside_calls_app. auto. }
    destruct (insertMany_answer env) as [e|];
      tidy; rewrite !outside_calls_app; auto.
  - tidy. rewrite !outside_calls_app. auto.
  - tidy. rewrite !outside_calls_app. auto.
Qed.


Lemma stored_fields eng (d v : Article) :
  stored eng d = Return v ->
  cast_String (Number_toString eng) "title" (title d) = Return (title v) /\
  cast_String (Number_toString eng) "description" (description d) = Return (description v) /\
  cast_String (Number_toString eng) "url" (url d) = Return (url v) /\
  cast_String (Number_toString eng) "imageUrl" (imageUrl d) = Return (imageUrl v) /\
  publishedAt v = publishedAt d /\
  exists ms, publishedAt v = ValidDate ms.
Proof.
  unfold stored, NewsSchema.
  destruct (cast_String _ "title" _) as [t|?]; cbn [and_then]; [|discriminate].
  destruct (cast_String _ "description" _) as [de|?]; cbn [and_then]; [|discriminate].
  destruct (cast_String _ "url" _) as [u|?]; cbn [and_then]; [|discriminate].
  destruct (cast_String _ "imageUrl" _) as [i|?]; cbn [and_then]; [|discriminate].
  destruct (publishedAt d) as [ms|] eqn:Ed; cbn [cast_Date and_then]; [|discriminate].
  intros [= <-]. cbn. repeat split; eauto.
Qed.

Lemma mapped_stored eng (o : Obj) (d v : Article) :
  mapped eng o = Return d -> stored eng d = Return v -> snapshot_of eng o v.
Proof.
  unfold mapped. intros Hd Hv.
  destruct (newDate _ _ _) as [date|?] eqn:Edate; cbn [and_then] in Hd; [|discriminate].
  injection Hd as <-.
  apply stored_fields in Hv as (Ht & Hde & Hu & Hi & Hp & Hms).
  cbn [title description url imageUrl publishedAt] in *.
  unfold snapshot_of. repeat split; try assumption.
  rewrite Hp. exact Edate.
Qed.

Lemma replaced_snapshots eng (remote : list Obj) (docs valid : list Article) :
  traverse (mapped eng) remote = Return docs ->
  traverse (stored eng) docs = Return valid ->
  Forall2 (snapshot_of eng) remote valid.
Proof.
  intros Hdocs Hvalid.
  apply traverse_Forall2 in Hdocs. apply traverse_Forall2 in Hvalid.
  revert valid Hvalid. induction Hdocs as [|o d remote docs Hod _ IH]; intros valid Hvalid.
  - inversion Hvalid. constructor.
  - inversion Hvalid as [|? v ? valid' Hdv Hrest]; subst.
    constructor; [by eapply mapped_stored | by apply IH].
Qed.

(** Claim C1, amended. For every sync run, manual or scheduled, in which
    the upstream body carries N >= 1 article objects that map to documents
    the [NewsSchema] accepts and the store accepts both the delete and the
    insert, the collection afterwards is exactly N records, in upstream
    order: each remote article mapped to [title], [description], [url],
    [imageUrl] taken from [urlToImage] and [publishedAt] parsed from the
    remote timestamp, the text members cast by the schema. Nothing of the
    earlier collection remains: [DeleteMany] runs first, then
    [InsertMany]. *)
Theorem sync_replaces_store eng cfg env w data remote docs valid :
  axios_answer env = inr data ->
  carries data remote ->
  remote <> [] ->
  traverse (mapped eng) remote = Return docs ->
  traverse (stored eng) docs = Return valid ->
  deleteMany_answer env = None ->
  insertMany_answer env = None ->
  get_api_fetch_news eng cfg env w =
    (Return {| status := 200;
               payload := MessagePayload "News fetched and saved successfully!" |},
     extended w valid
       [ConsoleLog "Fetching latest news..."; AxiosGet (NEWS_ADDRESS cfg);
        DeleteMany; InsertMany docs]) /\
  cron_fetch_news eng cfg env w =
    (Return tt,
     extended w valid
       [ConsoleLog "Running scheduled news update..."; AxiosGet (NEWS_ADDRESS cfg);
        DeleteMany; InsertMany docs;
        ConsoleLog "News updated successfully!"]) /\
  length valid = length remote /\
  Forall2 (snapshot_of eng) remote valid.
Proof.
  intros Hax Hdata Hne Hdocs Hvalid Hdel Hins.
  pose proof (normalize_carries eng data remote docs Hdata Hne Hdocs) as Hnorm.
  split; [|split; [|split]].
  - run_manual. rewrite Hax, Hnorm, Hdel, Hvalid, Hins. tidy. reflexivity.
  - run_cron. rewrite Hax, Hnorm, Hdel, Hvalid, Hins. tidy. reflexivity.
  - rewrite (traverse_length _ _ _ Hvalid). by apply traverse_length in Hdocs.
  - by eapply replaced_snapshots.
Qed.

(** Claim C9. A sync run is not atomic. When the upstream body carries at
    least one article, the articles are mapped, the delete is accepted and
    the insert then fails, the manual trigger answers 500 and the timer
    only logs, and in both cases the collection is left empty: a
    collection that held documents before the run is not what it was. *)
Theorem failed_insert_loses_store eng cfg env w data remote docs e :
  axios_answer env = inr data ->
  carries data remote ->
  remote <> [] ->
  traverse (mapped eng) remote = Return docs ->
  deleteMany_answer env = None ->
  insert_failure eng env docs = Some e ->
  get_api_fetch_news eng cfg env w =
    (Return {| status := 500; payload := ErrorPayload "Failed to fetch news" |},
     extended w []
       [ConsoleLog "Fetching latest news..."; AxiosGet (NEWS_ADDRESS cfg);
        DeleteMany; InsertMany docs;
        ConsoleErrorMessage "Error fetching news:" (message e)]) /\
  cron_fetch_news eng cfg env w =
    (Return tt,
     extended w []
       [ConsoleLog "Running scheduled news update..."; AxiosGet (NEWS_ADDRESS cfg);
        DeleteMany; InsertMany docs;
        ConsoleErrorMessage "Error fetching news:" (message e)]) /\
  (News w <> [] ->
     News (snd (get_api_fetch_news eng cfg env w)) <> News w /\
     News (snd (cron_fetch_news eng cfg env w)) <> News w).
Proof.
  intros Hax Hdata Hne Hdocs Hdel Hins.
  pose proof (normalize_carries eng data remote docs Hdata Hne Hdocs) as Hnorm.
  unfold insert_failure in Hins.
  assert (Hm : get_api_fetch_news eng cfg env w =
    (Return {| status := 500; payload := ErrorPayload "Failed to fetch news" |},
     extended w []
       [ConsoleLog "Fetching latest news..."; AxiosGet (NEWS_ADDRESS cfg);
        DeleteMany; InsertMany docs;
        ConsoleErrorMessage "Error fetching news:" (message e)])).
  { run_manual. rewrite Hax, Hnorm, Hdel.
    destruct (traverse (stored eng) docs); [rewrite Hins | injection Hins as ->];
      tidy; reflexivity. }
  assert (Hc : cron_fetch_news eng cfg env w =
    (Return tt,
     extended w []
       [ConsoleLog "Running scheduled news update..."; AxiosGet (NEWS_ADDRESS cfg);
        DeleteMany; InsertMany docs;
        ConsoleErrorMessage "Error fetching news:" (message e)])).
  { run_cron. rewrite Hax, Hnorm, Hdel.
    destruct (traverse (stored eng) docs); [rewrite Hins | injection Hins as ->];
      tidy; reflexivity. }
  rewrite Hm, Hc. cbn [snd extended News]. repeat split; congruence.
Qed.

Lemma traverse_throws {A B} (f : A -> Outcome B) (l : list A) x e :
  In x l -> f x = Throw e -> exists e', traverse f l = Throw e'.
Proof.
  induction l as [|y l IH]; intros Hin Hf; [destruct Hin|].
  cbn [traverse]. destruct (f y) as [b|e0] eqn:Ey; cbn [and_then]; [|eauto].
  destruct Hin as [->|Hin]; [congruence|].
  destruct (IH Hin Hf) as [e' ->]. eauto.
Qed.

(** A value has a text exactly when it converts to a primitive. *)
Lemma ToString_convertible print (v : JsVal) :
  if convertible v then exists s, ToString print v = Return s
  else exists e, ToString print v = Throw e.
Proof.
  revert v. fix nested 1. intros v.
  destruct v as [| |[|]|n|s|items|o]; cbn [convertible ToString]; eauto.
  - induction items as [|x rest IH]; [cbn; eauto|].
    pose proof (nested x) as Hx.
    cbn [convertible] in IH |- *.
    destruct (convertible x) eqn:Ex; cbn [andb].
    + assert (Hhead : exists sx, match x with
                                  | JUndefined | JNull => Return ""
                                  | _ => ToString print x
                                  end = Return sx).
      { destruct Hx as [sx Hsx]. destruct x; eauto. }
      destruct Hhead as [sx ->]. cbn [and_then].
      destruct rest as [|y rest']; [cbn; eauto|].
      match type of IH with
      | if ?c then _ else _ => destruct c
      end; destruct IH as [r ->]; cbn [and_then]; eauto.
    + assert (Hhead : exists e, match x with
                                 | JUndefined | JNull => Return ""
                                 | _ => ToString print x
                                 end = Throw e).
      { destruct Hx as [e He]. destruct x; try discriminate; eauto. }
      destruct Hhead as [e ->]. cbn [and_then]. eauto.
  - destruct (has_own o "toString"); cbn [negb]; eauto.
Qed.

Lemma newDate_throws parse print v :
  convertible v = false -> exists e, newDate parse print v = Throw e.
Proof.
  intros Hv. pose proof (ToString_convertible print v) as Hs. rewrite Hv in Hs.
  destruct Hs as [e He]. destruct v; try discriminate; cbn [newDate]; rewrite He; eauto.
Qed.

Lemma newDate_returns parse print v :
  convertible v = true -> exists d, newDate parse print v = Return d.
Proof.
  intros Hv. pose proof (ToString_convertible print v) as Hs. rewrite Hv in Hs.
  destruct Hs as [s Hs]. destruct v; cbn [newDate]; eauto; rewrite Hs; eauto.
Qed.

Lemma malformed_throws eng data :
  Malformed data -> exists e, normalize eng data = Throw e.
Proof.
  unfold normalize.
  intros [d [-> | ->] | d articles Hp Ht Harr Hlen | d items Hp Hin | d items o Hp Hin Hbad].
  - cbn. eauto.
  - cbn. eauto.
  - rewrite Hp. cbn [and_then]. unfold no_articles. rewrite Ht. cbn [negb].
    destruct (prop articles "length") as [len|e] eqn:El; cbn [and_then]; [|eauto].
    rewrite (Hlen len eq_refl).
    destruct articles; cbn; eauto. exfalso. eapply Harr. reflexivity.
  - rewrite Hp. cbn [and_then]. unfold no_articles.
    cbn [truthy negb prop String.eqb Ascii.eqb Bool.eqb and_then].
    destruct (is_zero (JNum (number_of_nat (length items)))) eqn:Ez.
    { apply number_of_nat_zero in Ez. destruct items; [destruct Hin as [[]|[]] | discriminate]. }
    unfold array_map.
    destruct Hin as [Hin|Hin];
      (eapply traverse_throws in Hin as [e' ->]; [cbn; eauto | reflexivity]).
  - rewrite Hp. cbn [and_then]. unfold no_articles.
    cbn [truthy negb prop String.eqb Ascii.eqb Bool.eqb and_then].
    destruct (is_zero (JNum (number_of_nat (length items)))) eqn:Ez.
    { apply number_of_nat_zero in Ez. destruct items; [destruct Hin | discriminate]. }
    unfold array_map.
    destruct (newDate_throws (Date_parse eng) (Number_toString eng) _ Hbad) as [e He].
    eapply traverse_throws in Hin as [e' ->]; [cbn; eauto|].
    rewrite to_article_object. unfold mapped. rewrite He. reflexivity.
Qed.

(** Claim C3, amended. For every sync run that fails, by a network error,
    by a malformed body (no body at all, an [articles] member that is
    present and non-empty but no list, a list with a [null] entry or with
    an entry whose timestamp has no primitive value) or by a delete or an
    insert that fails, the manual trigger answers 500 with the generic
    "Failed to fetch news" and the timer returns after logging the error.
    No store call follows the failure: the trace holds the calls attempted
    before it and then the error line, and the collection is as the failed
    step left it. A body that merely lacks an [articles] member is not
    among these failures. *)
Theorem sync_failure_reported eng cfg env w attempted kept :
  SyncFailure eng env attempted kept ->
  exists e,
    get_api_fetch_news eng cfg env w =
      (Return {| status := 500; payload := ErrorPayload "Failed to fetch news" |},
       extended w (if kept then News w else [])
         ([ConsoleLog "Fetching latest news..."; AxiosGet (NEWS_ADDRESS cfg)]
            ++ attempted
            ++ [ConsoleErrorMessage "Error fetching news:" (message e)])) /\
    cron_fetch_news eng cfg env w =
      (Return tt,
       extended w (if kept then News w else [])
         ([ConsoleLog "Running scheduled news update..."; AxiosGet (NEWS_ADDRESS cfg)]
            ++ attempted
            ++ [ConsoleErrorMessage "Error fetching news:" (message e)])).
Proof.
  intros [e Hax | data Hax Hbad | data docs e Hax Hnorm Hdel
         | data docs e Hax Hnorm Hdel Hins | data docs e Hax Hnorm Hdel Hbad].
  - exists e. split; [run_manual | run_cron]; rewrite Hax; tidy; reflexivity.
  - destruct (malformed_throws eng data Hbad) as [e Hnorm].
    exists e. split; [run_manual | run_cron]; rewrite Hax, Hnorm; tidy; reflexivity.
  - exists e. split; [run_manual | run_cron]; rewrite Hax, Hnorm, Hdel; tidy; reflexivity.
  - destruct (traverse (stored eng) docs) as [valid|e'] eqn:Ev.
    + exists e. split; [run_manual | run_cron];
        rewrite Hax, Hnorm, Hdel, Ev, Hins; tidy; reflexivity.
    + exists e'. split; [run_manual | run_cron];
        rewrite Hax, Hnorm, Hdel, Ev; tidy; reflexivity.
  - exists e. split; [run_manual | run_cron];
      rewrite Hax, Hnorm, Hdel, Hbad; tidy; reflexivity.
Qed.

(** ** The token gate *)

Lemma no_header_no_token req :
  authorization req = None -> token_missing (bearer_token req) = true.
Proof. unfold bearer_token. intros ->. reflexivity. Qed.

(** Claim C6. A [POST /api/news] whose Authorization header yields no
    token is answered 401 and leaves the world untouched; one whose token
    the identity provider rejects is answered 403, the only event being the
    verification call. In both cases the outcome is the same for every
    handler mounted behind [verifyToken] and does not mention the request
    body: the protected handler is not run and nothing is written. *)
Theorem unauthenticated_post_rejected eng env (handler : Request -> M Response) req w :
  (token_missing (bearer_token req) = true ->
     guarded env handler req w =
       (Return {| status := 401; payload := ErrorPayload "Unauthorized" |}, w) /\
     post_api_news eng env req w =
       (Return {| status := 401; payload := ErrorPayload "Unauthorized" |}, w)) /\
  (forall token e,
     bearer_token req = Some token ->
     token <> "" ->
     verifyIdToken_answer env token = inl e ->
     guarded env handler req w =
       (Return {| status := 403; payload := ErrorPayload "Invalid token" |},
        extended w (News w) [VerifyIdToken token]) /\
     post_api_news eng env req w =
       (Return {| status := 403; payload := ErrorPayload "Invalid token" |},
        extended w (News w) [VerifyIdToken token]) /\
     count_events is_store_write (trace (snd (post_api_news eng env req w))) =
       count_events is_store_write (trace w)).
Proof.
  split.
  - intros Hmiss. unfold post_api_news.
    split; unfold guarded, verifyToken, try_catch, bind, respond, ret;
      rewrite Hmiss; reflexivity.
  - intros token e Htok Hne Hbad.
    assert (Hmiss : token_missing (bearer_token req) = false).
    { rewrite Htok. cbn. by apply String.eqb_neq. }
    assert (Hrun : forall h, guarded env h req w =
       (Return {| status := 403; payload := ErrorPayload "Invalid token" |},
        extended w (News w) [VerifyIdToken token])).
    { intros h. unfold guarded, verifyToken, verifyIdToken, try_catch, bind, respond,
        emit, throw, ret, extended.
      rewrite Hmiss, Htok. cbn. rewrite Hbad. reflexivity. }
    unfold post_api_news. rewrite !Hrun. split; [reflexivity|]. split; [reflexivity|].
    unfold count_events, extended. cbn [snd trace].
    rewrite List.filter_app, length_app. cbn. lia.
Qed.

Lemma verifyToken_run env req w :
  verifyToken env req w =
  match bearer_token req with
  | None =>
      (Return (Answered {| status := 401; payload := ErrorPayload "Unauthorized" |}), w)
  | Some token =>
      if String.eqb token "" then
        (Return (Answered {| status := 401; payload := ErrorPayload "Unauthorized" |}), w)
      else
        match verifyIdToken_answer env token with
        | inl _ =>
            (Return (Answered {| status := 403; payload := ErrorPayload "Invalid token" |}),
             extended w (News w) [VerifyIdToken token])
        | inr decoded =>
            (Return (Next (identified req decoded)),
             extended w (News w) [VerifyIdToken token])
        end
  end.
Proof.
  unfold verifyToken, verifyIdToken, try_catch, bind, respond, emit, throw, ret,
    extended, identified.
  destruct (bearer_token req) as [token|]; cbn; [|reflexivity].
  destruct (String.eqb token ""); cbn; [reflexivity|].
  destruct (verifyIdToken_answer env token); reflexivity.
Qed.

Lemma guarded_run env (handler : Request -> M Response) req w :
  guarded env handler req w =
  match bearer_token req with
  | None => (Return {| status := 401; payload := ErrorPayload "Unauthorized" |}, w)
  | Some token =>
      if String.eqb token "" then
        (Return {| status := 401; payload := ErrorPayload "Unauthorized" |}, w)
      else
        match verifyIdToken_answer env token with
        | inl _ =>
            (Return {| status := 403; payload := ErrorPayload "Invalid token" |},
             extended w (News w) [VerifyIdToken token])
        | inr decoded =>
            handler (identified req decoded) (extended w (News w) [VerifyIdToken token])
        end
  end.
Proof.
  unfold guarded, bind. rewrite verifyToken_run.
  destruct (bearer_token req) as [token|]; [|reflexivity].
  destruct (String.eqb token ""); [reflexivity|].
  destruct (verifyIdToken_answer env token); reflexivity.
Qed.


(** ** Creating one article *)

Lemma post_api_news_run eng env req w :
  post_api_news eng env req w =
  match bearer_token req with
  | None => (Return {| status := 401; payload := ErrorPayload "Unauthorized" |}, w)
  | Some token =>
      if String.eqb token "" then
        (Return {| status := 401; payload := ErrorPayload "Unauthorized" |}, w)
      else
        match verifyIdToken_answer env token with
        | inl _ =>
            (Return {| status := 403; payload := ErrorPayload "Invalid token" |},
             extended w (News w) [VerifyIdToken token])
        | inr decoded =>
            let doc := submitted env (body req) in
            let sorry := {| status := 500; payload := ErrorPayload "Failed to add news" |} in
            match stored eng doc with
            | Throw _ => (Return sorry, extended w (News w) [VerifyIdToken token; Save doc])
            | Return valid =>
                match save_answer env with
                | None =>
                    (Return {| status := 201;
                               payload := MessagePayload "News added successfully!" |},
                     extended w (News w ++ [valid]) [VerifyIdToken token; Save doc])
                | Some _ =>
                    (Return sorry, extended w (News w) [VerifyIdToken token; Save doc])
                end
            end
        end
  end.
Proof.
  unfold post_api_news. rewrite guarded_run.
  destruct (bearer_token req) as [token|]; [|reflexivity].
  destruct (String.eqb token ""); [reflexivity|].
  destruct (verifyIdToken_answer env token) as [e|decoded]; [reflexivity|].
  unfold post_api_news_handler, News_save, try_catch, bind, lift, respond, emit, settle,
    set_News, get_News, throw, ret, extended, submitted, identified, stored.
  cbn. destruct (NewsSchema _ _); cbn; [|rewrite <- app_assoc; reflexivity].
  destruct (save_answer env); cbn; rewrite <- app_assoc; reflexivity.
Qed.

Lemma submitted_record eng env (o : Obj) (valid : Article) :
  stored eng (submitted env o) = Return valid -> record_of eng env o valid.
Proof.
  intros Hv. apply stored_fields in Hv as (Ht & Hd & Hu & Hi & Hp & _).
  unfold record_of. repeat split; assumption.
Qed.

(** Claim C8. A [POST /api/news] with a verified token whose document the
    schema and the store accept is answered 201 and appends exactly one
    document to the collection, built from the body's [title],
    [description], [url] and [imageUrl], cast by the schema, with
    [publishedAt] set to the time of the call. Every request answered 201
    is such a request. *)
Theorem authenticated_post_creates_one eng env req w :
  (forall token decoded valid,
     bearer_token req = Some token ->
     token <> "" ->
     verifyIdToken_answer env token = inr decoded ->
     stored eng (submitted env (body req)) = Return valid ->
     save_answer env = None ->
     post_api_news eng env req w =
       (Return {| status := 201; payload := MessagePayload "News added successfully!" |},
        extended w (News w ++ [valid])
          [VerifyIdToken token; Save (submitted env (body req))]) /\
     record_of eng env (body req) valid) /\
  (forall res w',
     post_api_news eng env req w = (Return res, w') ->
     status res = 201 ->
     exists token decoded valid,
       bearer_token req = Some token /\
       verifyIdToken_answer env token = inr decoded /\
       News w' = News w ++ [valid] /\
       length (News w') = S (length (News w)) /\
       record_of eng env (body req) valid).
Proof.
  split.
  - intros token decoded valid Htok Hne Hok Hvalid Hsave.
    rewrite post_api_news_run, Htok, Hok. cbv zeta. rewrite Hvalid, Hsave.
    apply String.eqb_neq in Hne. rewrite Hne.
    split; [reflexivity | by eapply submitted_record].
  - intros res w'. rewrite post_api_news_run.
    destruct (bearer_token req) as [token|]; [|intros [= <- <-]; discriminate].
    destruct (String.eqb token ""); [intros [= <- <-]; discriminate|].
    destruct (verifyIdToken_answer env token) as [e|decoded] eqn:Hok;
      [intros [= <- <-]; discriminate|].
    cbv zeta.
    destruct (stored eng (submitted env (body req))) as [valid|e] eqn:Hvalid;
      [|intros [= <- <-]; discriminate].
    destruct (save_answer env); [intros [= <- <-]; discriminate|].
    intros [= <- <-] _. exists token, decoded, valid.
    cbn [extended News]. rewrite length_app. cbn [length].
    split; [reflexivity|]. split; [exact Hok|]. split; [reflexivity|].
    split; [lia | by eapply submitted_record].
Qed.

Lemma own_absent (o : Obj) key :
  ~ In key (map fst o) -> own o key = JUndefined.
Proof.
  induction o as [|[k v] o IH]; [reflexivity|].
  cbn. intros Hnot. destruct (String.eqb k key) eqn:E.
  - apply String.eqb_eq in E. tauto.
  - apply IH. tauto.
Qed.

Lemma cast_String_castable print path v :
  castable v = true -> exists c, cast_String print path v = Return c.
Proof.
  destruct v as [| |[|]|n|s|items|o]; cbn; eauto; [discriminate|].
  destruct (own o "_id"); try discriminate.
  destruct (String.eqb s ""); [discriminate | eauto].
Qed.

Lemma stored_castable eng env (o : Obj) :
  castable (own o "title") = true ->
  castable (own o "description") = true ->
  castable (own o "url") = true ->
  castable (own o "imageUrl") = true ->
  exists valid, stored eng (submitted env o) = Return valid.
Proof.
  intros Ht Hd Hu Hi. unfold stored, NewsSchema, submitted.
  cbn [title description url imageUrl publishedAt].
  destruct (cast_String_castable (Number_toString eng) "title" _ Ht) as [t ->].
  destruct (cast_String_castable (Number_toString eng) "description" _ Hd) as [d ->].
  destruct (cast_String_castable (Number_toString eng) "url" _ Hu) as [u ->].
  destruct (cast_String_castable (Number_toString eng) "imageUrl" _ Hi) as [i ->].
  cbn. eauto.
Qed.

Lemma cast_String_plain print path v c :
  cast_String print path v = Return c ->
  (v = JUndefined -> c = JUndefined) /\ (forall s, v = JStr s -> c = JStr s).
Proof.
  intros Hc. split.
  - intros ->. cbn in Hc. congruence.
  - intros s ->. cbn in Hc. congruence.
Qed.

(** Claim C10, amended. [POST /api/news] checks nothing itself; what the
    body must pass is the [NewsSchema]. For every request with a verified
    token whose [title], [description], [url] and [imageUrl] the schema
    can cast (text, numbers, booleans, [null], or absent; not lists, nor
    objects without a text [_id]) and whose save the store accepts, the
    answer is 201 and the stored document takes each member from the body
    when the body has it, a text as it is and the others cast to text, and
    leaves it unset when the body lacks it, with [publishedAt] set to the
    time of the call. *)
Theorem post_accepts_any_body eng env auth o who w token decoded :
  bearer_token (mkRequest auth o who) = Some token ->
  token <> "" ->
  verifyIdToken_answer env token = inr decoded ->
  castable (own o "title") = true ->
  castable (own o "description") = true ->
  castable (own o "url") = true ->
  castable (own o "imageUrl") = true ->
  save_answer env = None ->
  exists valid,
    fst (post_api_news eng env (mkRequest auth o who) w) =
      Return {| status := 201; payload := MessagePayload "News added successfully!" |} /\
    News (snd (post_api_news eng env (mkRequest auth o who) w)) = News w ++ [valid] /\
    record_of eng env o valid /\
    (forall s, own o "title" = JStr s -> title valid = JStr s) /\
    (forall s, own o "description" = JStr s -> description valid = JStr s) /\
    (forall s, own o "url" = JStr s -> url valid = JStr s) /\
    (forall s, own o "imageUrl" = JStr s -> imageUrl valid = JStr s) /\
    (~ In "title" (map fst o) -> title valid = JUndefined) /\
    (~ In "description" (map fst o) -> description valid = JUndefined) /\
    (~ In "url" (map fst o) -> url valid = JUndefined) /\
    (~ In "imageUrl" (map fst o) -> imageUrl valid = JUndefined).
Proof.
  intros Htok Hne Hok Ht Hd Hu Hi Hsave.
  destruct (stored_castable eng env o Ht Hd Hu Hi) as [valid Hvalid].
  exists valid. rewrite post_api_news_run, Htok, Hok. cbv zeta.
  cbn [body]. rewrite Hvalid, Hsave.
  apply String.eqb_neq in Hne. rewrite Hne. cbn [fst snd extended News].
  pose proof (submitted_record eng env o valid Hvalid) as Hrec.
  destruct Hrec as (Ct & Cd & Cu & Ci & Cp).
  split; [reflexivity|]. split; [reflexivity|].
  split; [unfold record_of; auto|].
  repeat split.
  - intros s Hs. by apply (cast_String_plain _ _ _ _ Ct).
  - intros s Hs. by apply (cast_String_plain _ _ _ _ Cd).
  - intros s Hs. by apply (cast_String_plain _ _ _ _ Cu).
  - intros s Hs. by apply (cast_String_plain _ _ _ _ Ci).
  - intros Habs. apply (cast_String_plain _ _ _ _ Ct), own_absent, Habs.
  - intros Habs. apply (cast_String_plain _ _ _ _ Cd), own_absent, Habs.
  - intros Habs. apply (cast_String_plain _ _ _ _ Cu), own_absent, Habs.
  - intros Habs. apply (cast_String_plain _ _ _ _ Ci), own_absent, Habs.
Qed.

(** ** The contact form *)

Lemma blank_field_is_falsy (o : Obj) key :
  ~ In key (map fst o) \/ own o key = JNull \/ own o key = JStr "" ->
  truthy (own o key) = false.
Proof.
  intros [Habs | [-> | ->]]; [|reflexivity..].
  rewrite (own_absent o key Habs). reflexivity.
Qed.

Lemma text_of_convertible print v :
  convertible v = true -> exists s, ToString print v = Return s.
Proof. intros Hv. pose proof (ToString_convertible print v) as H. by rewrite Hv in H. Qed.

Lemma text_of_unconvertible print v :
  convertible v = false -> exists e, ToString print v = Throw e.
Proof. intros Hv. pose proof (ToString_convertible print v) as H. by rewrite Hv in H. Qed.

Lemma mail_for_convertible eng cfg name email message :
  convertible name = true ->
  convertible email = true ->
  convertible message = true ->
  exists options, mail_for eng cfg name email message = Return options.
Proof.
  intros Hn He Hm. unfold mail_for.
  destruct (text_of_convertible (Number_toString eng) name Hn) as [sn ->].
  destruct (text_of_convertible (Number_toString eng) email He) as [se ->].
  destruct (text_of_convertible (Number_toString eng) message Hm) as [sm ->].
  cbn. eauto.
Qed.

Lemma mail_for_unconvertible eng cfg name email message :
  convertible name = false \/ convertible email = false \/ convertible message = false ->
  exists e, mail_for eng cfg name email message = Throw e.
Proof.
  intros Hbad. unfold mail_for.
  destruct (ToString (Number_toString eng) name) as [sn|e] eqn:En; cbn [and_then]; [|eauto].
  destruct (ToString (Number_toString eng) email) as [se|e] eqn:Ee; cbn [and_then]; [|eauto].
  destruct (ToString (Number_toString eng) message) as [sm|e] eqn:Em; cbn [and_then]; [|eauto].
  exfalso. destruct Hbad as [H | [H | H]];
    apply (text_of_unconvertible (Number_toString eng)) in H as [e He]; congruence.
Qed.


(** ** The properties on the sample runs *)

Lemma sync_replaces_store_witness :
  carries two_feed [first_remote; second_remote] /\
  News (snd (get_api_fetch_news sample_engine sample_cfg env_synced sample_world)) =
    [first_doc; second_doc] /\
  News (snd (cron_fetch_news sample_engine sample_cfg env_synced sample_world)) =
    [first_doc; second_doc].
Proof.
  destruct (sync_replaces_store sample_engine sample_cfg env_synced sample_world two_feed
              [first_remote; second_remote] [first_doc; second_doc]
              [first_doc; second_doc]) as (Hm & Hc & _);
    [reflexivity | reflexivity | discriminate | reflexivity | reflexivity
    | reflexivity | reflexivity |].
  rewrite Hm, Hc. repeat split; reflexivity.
Defined.

(** One upstream article and every service answering: without a timestamp
    the schema turns the document down after the delete, and the
    collection ends empty. The same with a valid article and the insert
    rejected by the store. *)
Lemma sync_of_one_article_stores_nothing :
  axios_answer env_untimed = inr (sample_feed [untimed_remote]) /\
  carries (sample_feed [untimed_remote]) [untimed_remote] /\
  deleteMany_answer env_untimed = None /\
  insertMany_answer env_untimed = None /\
  fst (get_api_fetch_news sample_engine sample_cfg env_untimed sample_world) =
    Return {| status := 500; payload := ErrorPayload "Failed to fetch news" |} /\
  length (News (snd (get_api_fetch_news sample_engine sample_cfg env_untimed
                       sample_world))) <> 1%nat /\
  length (News (snd (cron_fetch_news sample_engine sample_cfg env_untimed
                       sample_world))) <> 1%nat /\
  carries one_feed [first_remote] /\
  length (News (snd (get_api_fetch_news sample_engine sample_cfg env_insert_rejected
                       sample_world))) <> 1%nat.
Proof. repeat split; vm_compute; discriminate. Qed.

Lemma empty_upstream_leaves_store_witness :
  fst (get_api_fetch_news sample_engine sample_cfg env_empty_feed sample_world) =
    Return {| status := 404; payload := MessagePayload "No news found" |} /\
  News (snd (get_api_fetch_news sample_engine sample_cfg env_empty_feed sample_world)) =
    [old_article] /\
  News (snd (cron_fetch_news sample_engine sample_cfg env_empty_feed sample_world)) =
    [old_article].
Proof.
  destruct (empty_upstream_leaves_store sample_engine sample_cfg env_empty_feed sample_world
              (sample_feed [])) as (Hm & Hc & _); [reflexivity | reflexivity |].
  rewrite Hm, Hc. repeat split; reflexivity.
Defined.

Lemma sync_failure_reported_witness :
  fst (get_api_fetch_news sample_engine sample_cfg env_delete_rejected sample_world) =
    Return {| status := 500; payload := ErrorPayload "Failed to fetch news" |} /\
  fst (cron_fetch_news sample_engine sample_cfg env_delete_rejected sample_world) = Return tt.
Proof.
  destruct (sync_failure_reported sample_engine sample_cfg env_delete_rejected sample_world
              [DeleteMany] true) as (e & Hm & Hc).
  { eapply (DeleteRejected _ _ one_feed); reflexivity. }
  rewrite Hm, Hc. split; reflexivity.
Defined.

(** A body without an [articles] member is answered 404, not 500. *)
Lemma missing_list_is_not_a_failure :
  axios_answer env_without_list = inr feed_without_list /\
  prop feed_without_list "articles" = Return JUndefined /\
  fst (get_api_fetch_news sample_engine sample_cfg env_without_list sample_world) =
    Return {| status := 404; payload := MessagePayload "No news found" |} /\
  fst (get_api_fetch_news sample_engine sample_cfg env_without_list sample_world) <>
    Return {| status := 500; payload := ErrorPayload "Failed to fetch news" |}.
Proof. repeat split; vm_compute; discriminate. Qed.

Lemma news_listing_newest_first_witness :
  fst (get_api_news env_quiet shuffled_world) =
    Return {| status := 200;
              payload := NewsPayload [second_doc; first_doc; old_article] |} /\
  fst (get_api_news env_find_rejected shuffled_world) =
    Return {| status := 500; payload := ErrorPayload "Failed to fetch news" |}.
Proof.
  split.
  - destruct (news_listing_newest_first env_quiet shuffled_world) as [Hok _].
    destruct (Hok eq_refl) as (Hrun & _). rewrite Hrun. reflexivity.
  - destruct (news_listing_newest_first env_find_rejected shuffled_world) as [_ Hbad].
    rewrite (Hbad rejected eq_refl). reflexivity.
Defined.

Lemma unauthenticated_post_rejected_witness :
  post_api_news sample_engine env_quiet (anonymous full_body) sample_world =
    (Return {| status := 401; payload := ErrorPayload "Unauthorized" |}, sample_world) /\
  fst (post_api_news sample_engine env_quiet (bearer "forged" full_body) sample_world) =
    Return {| status := 403; payload := ErrorPayload "Invalid token" |} /\
  News (snd (post_api_news sample_engine env_quiet (bearer "forged" full_body) sample_world)) =
    [old_article].
Proof.
  split; [|split].
  - destruct (unauthenticated_post_rejected sample_engine env_quiet
                (post_api_news_handler sample_engine env_quiet)
                (anonymous full_body) sample_world) as [Hno _].
    destruct (Hno eq_refl) as [_ Hrun]. exact Hrun.
  - destruct (unauthenticated_post_rejected sample_engine env_quiet
                (post_api_news_handler sample_engine env_quiet)
                (bearer "forged" full_body) sample_world) as [_ Hbad].
    destruct (Hbad "forged" (ServiceError "Decoding Firebase ID token failed"))
      as (_ & Hrun & _); [reflexivity | discriminate | reflexivity |].
    rewrite Hrun. reflexivity.
  - destruct (unauthenticated_post_rejected sample_engine env_quiet
                (post_api_news_handler sample_engine env_quiet)
                (bearer "forged" full_body) sample_world) as [_ Hbad].
    destruct (Hbad "forged" (ServiceError "Decoding Firebase ID token failed"))
      as (_ & Hrun & _); [reflexivity | discriminate | reflexivity |].
    rewrite Hrun. reflexivity.
Defined.



Lemma authenticated_post_creates_one_witness :
  post_api_news sample_engine env_quiet (bearer "good-token" number_title) sample_world =
    (Return {| status := 201; payload := MessagePayload "News added successfully!" |},
     {| News := [old_article;
                 {| title := JStr "123";
                    description := JUndefined;
                    url := JUndefined;
                    imageUrl := JUndefined;
                    publishedAt := ValidDate (now env_quiet) |}];
        trace := [VerifyIdToken "good-token"; Save (submitted env_quiet number_title)] |}).
Proof.
  destruct (authenticated_post_creates_one sample_engine env_quiet
              (bearer "good-token" number_title) sample_world) as [Hthen _].
  destruct (Hthen "good-token" (JObj [("uid", JStr "u1")])
              {| title := JStr "123";
                 description := JUndefined;
                 url := JUndefined;
                 imageUrl := JUndefined;
                 publishedAt := ValidDate (now env_quiet) |}) as [Hrun _];
    [reflexivity | discriminate | reflexivity | reflexivity | reflexivity |].
  rewrite Hrun. reflexivity.
Defined.

Lemma failed_insert_loses_store_witness :
  fst (get_api_fetch_news sample_engine sample_cfg env_insert_rejected sample_world) =
    Return {| status := 500; payload := ErrorPayload "Failed to fetch news" |} /\
  News (snd (get_api_fetch_news sample_engine sample_cfg env_insert_rejected sample_world))
    = [] /\
  News (snd (cron_fetch_news sample_engine sample_cfg env_insert_rejected sample_world))
    = [] /\
  News sample_world = [old_article].
Proof.
  destruct (failed_insert_loses_store sample_engine sample_cfg env_insert_rejected
              sample_world one_feed [first_remote] [first_doc] rejected) as (Hm & Hc & _);
    [reflexivity | reflexivity | discriminate | reflexivity | reflexivity | reflexivity |].
  rewrite Hm, Hc. repeat split; reflexivity.
Defined.

(** A valid token, every service answering, and a title that is an object:
    the schema turns the document down, the answer is 500 and nothing is
    stored. The same with an empty body and the save rejected. *)
Lemma valid_post_with_object_title :
  verifyIdToken_answer env_quiet "good-token" = inr (JObj [("uid", JStr "u1")]) /\
  save_answer env_quiet = None /\
  post_api_news sample_engine env_quiet (bearer "good-token" object_title) sample_world =
    (Return {| status := 500; payload := ErrorPayload "Failed to add news" |},
     {| News := [old_article];
        trace := [VerifyIdToken "good-token"; Save (submitted env_quiet object_title)] |}) /\
  fst (post_api_news sample_engine env_quiet (bearer "good-token" object_title)
         sample_world) <>
    Return {| status := 201; payload := MessagePayload "News added successfully!" |} /\
  fst (post_api_news sample_engine env_save_rejected (bearer "good-token" []) sample_world) =
    Return {| status := 500; payload := ErrorPayload "Failed to add news" |}.
Proof. repeat split; vm_compute; discriminate. Qed.

Lemma post_accepts_any_body_witness :
  exists valid,
    fst (post_api_news sample_engine env_quiet (bearer "good-token" title_only)
           sample_world) =
      Return {| status := 201; payload := MessagePayload "News added successfully!" |} /\
    News (snd (post_api_news sample_engine env_quiet (bearer "good-token" title_only)
                 sample_world)) = [old_article; valid] /\
    title valid = JStr "Only a title" /\
    description valid = JUndefined.
Proof.
  destruct (post_accepts_any_body sample_engine env_quiet (Some "Bearer good-token")
              title_only None sample_world "good-token" (JObj [("uid", JStr "u1")]))
    as (valid & Hres & Hstore & _ & Ht & _ & _ & _ & _ & Hd & _);
    [reflexivity | discriminate | reflexivity | reflexivity | reflexivity | reflexivity
    | reflexivity | reflexivity |].
  exists valid.
  change (bearer "good-token" title_only)
    with (mkRequest (Some "Bearer good-token") title_only None).
  rewrite Hres, Hstore. repeat split.
  - by apply Ht.
  - apply Hd. cbn. intros [H | []]. discriminate H.
Defined.

(** ** Scenarios *)

(** Two upstream articles with timestamps T1 < T2: the manual trigger
    answers 200, and the listing then shows exactly the two, T2 first. *)
Example fetch_then_list :
  fst (get_api_news env_synced
         (snd (get_api_fetch_news sample_engine sample_cfg env_synced sample_world))) =
    Return {| status := 200; payload := NewsPayload [second_doc; first_doc] |}.
Proof. vm_compute. reflexivity. Qed.

(** A numeric title reaches the store as its text. *)
Example numeric_title_is_stored_as_text :
  News (snd (get_api_fetch_news sample_engine sample_cfg env_numbered sample_world)) =
    [{| title := JStr "42";
        description := JUndefined;
        url := JUndefined;
        imageUrl := JUndefined;
        publishedAt := ValidDate 1714557600000 |}].
Proof. vm_compute. reflexivity. Qed.

(** Bodies that make the run fail, one for each way of being malformed *)
Example text_for_articles_is_malformed :
  Malformed (JObj [("articles", JStr "none today")]).
Proof.
  eapply NotAList; [reflexivity | reflexivity | discriminate |].
  intros len [= <-]. reflexivity.
Qed.

Example null_entry_is_malformed :
  Malformed (JObj [("articles", JArr [JObj first_remote; JNull])]).
Proof. eapply NullEntry; [reflexivity | right; right; left; reflexivity]. Qed.

Example unreadable_date_is_malformed :
  Malformed (JObj [("articles", JArr [JObj [("publishedAt", unprintable)]])]).
Proof. eapply UnreadableDate; [reflexivity | left; reflexivity | reflexivity]. Qed.

(** A header that is not of the form "scheme token" carries no token. *)
Example scheme_alone_is_no_token :
  token_missing (bearer_token {| authorization := Some "Bearer"; body := []; user := None |})
  = true.
Proof. reflexivity. Qed.

(** * Further properties of the routes *)

(** ** The token gate, on every header *)

Lemma split_no_space s : no_space s = true -> split Ascii.Space s = [s].
Proof.
  induction s as [|c s IH]; [reflexivity|].
  cbn [no_space split]. intros H. apply andb_true_iff in H as [Hc Hs].
  apply negb_true_iff in Hc. rewrite Hc, (IH Hs). reflexivity.
Qed.

Lemma split_first_word a rest :
  no_space a = true ->
  split Ascii.Space (a +:+ String Ascii.Space rest) = a :: split Ascii.Space rest.
Proof.
  induction a as [|c a IH]; intros H.
  - reflexivity.
  - cbn [no_space] in H. apply andb_true_iff in H as [Hc Ha].
    apply negb_true_iff in Hc.
    change (String c a +:+ String Ascii.Space rest)
      with (String c (a +:+ String Ascii.Space rest)).
    cbn [split]. rewrite Hc, (IH Ha). reflexivity.
Qed.

Lemma append_empty_r (s : string) : s +:+ "" = s.
Proof.
  induction s as [|c s IH]; [reflexivity|].
  change (String c s +:+ "") with (String c (s +:+ "")). by rewrite IH.
Qed.

Lemma first_piece_no_space token rest :
  no_space token = true ->
  rest = "" \/ (exists r, rest = String Ascii.Space r) ->
  exists pieces, split Ascii.Space (token +:+ rest) = token :: pieces.
Proof.
  intros Htok [-> | [r ->]].
  - exists []. rewrite append_empty_r. by apply split_no_space.
  - exists (split Ascii.Space r). by apply split_first_word.
Qed.

(** Property X1.
    The token is the second space-separated word of the header, whatever
    the first word is and whatever follows the second. *)
Theorem token_is_second_word scheme token rest req :
  no_space scheme = true ->
  no_space token = true ->
  rest = "" \/ (exists r, rest = String Ascii.Space r) ->
  authorization req = Some (scheme +:+ " " +:+ token +:+ rest) ->
  bearer_token req = Some token.
Proof.
  intros Hs Ht Hrest Hauth. unfold bearer_token. rewrite Hauth.
  change (" " +:+ token +:+ rest) with (String Ascii.Space (token +:+ rest)).
  rewrite (split_first_word scheme _ Hs).
  destruct (first_piece_no_space token rest Ht Hrest) as [pieces ->].
  reflexivity.
Qed.

(** Property X2.
    A header of one word, or with two spaces after its first word, yields
    no token: the request is answered 401 without asking the identity
    provider, whatever token the header spells. *)
Theorem header_without_second_word_is_unauthorized
    env (handler : Request -> M Response) header req w :
  no_space header = true \/
  (exists scheme rest,
     no_space scheme = true /\ header = scheme +:+ "  " +:+ rest) ->
  authorization req = Some header ->
  guarded env handler req w =
    (Return {| status := 401; payload := ErrorPayload "Unauthorized" |}, w).
Proof.
  intros Hshape Hauth. rewrite guarded_run. unfold bearer_token. rewrite Hauth.
  destruct Hshape as [Hone | (scheme & rest & Hs & ->)].
  - rewrite (split_no_space header Hone). reflexivity.
  - change ("  " +:+ rest) with (String Ascii.Space (String Ascii.Space rest)).
    rewrite (split_first_word scheme _ Hs). reflexivity.
Qed.

(** Property X3.
    With an accepted token the protected handler is what answers: it runs
    on the same body and header with [req.user] set to the decoded token,
    in a world that differs by the one verification call. *)
Theorem verified_request_reaches_handler
    env (handler : Request -> M Response) req w token decoded :
  bearer_token req = Some token ->
  token <> "" ->
  verifyIdToken_answer env token = inr decoded ->
  guarded env handler req w =
    handler (identified req decoded) (extended w (News w) [VerifyIdToken token]) /\
  body (identified req decoded) = body req /\
  authorization (identified req decoded) = authorization req /\
  user (identified req decoded) = Some decoded.
Proof.
  intros Htok Hne Hok. rewrite guarded_run, Htok, Hok.
  apply String.eqb_neq in Hne. rewrite Hne. repeat split; reflexivity.
Qed.

(** ** [POST /api/news] on every request *)

(** Property X4.
    A rejected save behind a valid token is answered 500 with the generic
    "Failed to add news"; the collection keeps its documents. *)
Theorem rejected_save_is_reported eng env req w token decoded e :
  bearer_token req = Some token ->
  token <> "" ->
  verifyIdToken_answer env token = inr decoded ->
  save_answer env = Some e ->
  post_api_news eng env req w =
    (Return {| status := 500; payload := ErrorPayload "Failed to add news" |},
     extended w (News w) [VerifyIdToken token; Save (submitted env (body req))]).
Proof.
  intros Htok Hne Hok Hsave. rewrite post_api_news_run, Htok, Hok, Hsave.
  apply String.eqb_neq in Hne. rewrite Hne. cbv zeta.
  destruct (stored eng (submitted env (body req))); reflexivity.
Qed.

(** Property X5.
    The route always answers, with 201, 401, 403 or 500. The collection
    grows by one document, the submitted one as the schema casts it,
    exactly when the answer is 201 and is otherwise left as it was: no
    request removes or changes a stored document. *)
Theorem post_api_news_outcomes eng env req w :
  exists res w',
    post_api_news eng env req w = (Return res, w') /\
    ((status res = 201 /\
      exists valid,
        stored eng (submitted env (body req)) = Return valid /\
        News w' = News w ++ [valid]) \/
     ((status res = 401 \/ status res = 403 \/ status res = 500) /\ News w' = News w)).
Proof.
  rewrite post_api_news_run.
  destruct (bearer_token req) as [token|]; [|eauto 10].
  destruct (String.eqb token ""); [eauto 10|].
  destruct (verifyIdToken_answer env token) as [e|decoded]; [eauto 10|].
  cbv zeta. destruct (stored eng (submitted env (body req))) as [valid|e]; [|eauto 10].
  destruct (save_answer env); eauto 10.
Qed.

(** Property X6.
    When the identity provider accepts no token, no request writes: the
    answer is never 201, and the collection and the count of store writes
    in the trace stay as they were, whatever the header and the body. *)
Theorem no_write_without_verification eng env req w :
  (forall token, exists e, verifyIdToken_answer env token = inl e) ->
  News (snd (post_api_news eng env req w)) = News w /\
  count_events is_store_write (trace (snd (post_api_news eng env req w))) =
    count_events is_store_write (trace w) /\
  status_of (fst (post_api_news eng env req w)) <> Some 201.
Proof.
  intros Hlocked. rewrite post_api_news_run.
  destruct (bearer_token req) as [token|]; [|by repeat split].
  destruct (String.eqb token ""); [by repeat split|].
  destruct (Hlocked token) as [e ->].
  cbn [fst snd extended News trace status_of status]. repeat split; [|discriminate].
  unfold count_events. rewrite List.filter_app, length_app. cbn. lia.
Qed.

(** ** Listing after a submission *)

Lemma get_api_news_run env w :
  get_api_news env w =
  match find_answer env with
  | None =>
      (Return {| status := 200; payload := NewsPayload (sort_desc (News w)) |},
       extended w (News w) [FindSorted])
  | Some _ =>
      (Return {| status := 500; payload := ErrorPayload "Failed to fetch news" |},
       extended w (News w) [FindSorted])
  end.
Proof.
  unfold get_api_news, News_find_sorted, try_catch, bind, emit, settle, get_News,
    respond, throw, ret, extended.
  destruct (find_answer env); reflexivity.
Qed.

(** Property X7.
    A submitted article is retrievable: after a [POST /api/news] that the
    schema and the store accept, a listing that the store answers holds
    the documents stored before and the new one as the schema cast it, and
    nothing else. *)
Theorem posted_article_is_listed eng env env' req w token decoded valid :
  bearer_token req = Some token ->
  token <> "" ->
  verifyIdToken_answer env token = inr decoded ->
  stored eng (submitted env (body req)) = Return valid ->
  save_answer env = None ->
  find_answer env' = None ->
  exists listing,
    fst (get_api_news env' (snd (post_api_news eng env req w))) =
      Return {| status := 200; payload := NewsPayload listing |} /\
    listing ≡ₚ valid :: News w /\
    record_of eng env (body req) valid.
Proof.
  intros Htok Hne Hok Hvalid Hsave Hfind.
  rewrite post_api_news_run, Htok, Hok. cbv zeta. rewrite Hvalid, Hsave.
  apply String.eqb_neq in Hne. rewrite Hne.
  rewrite get_api_news_run, Hfind. cbn [fst snd extended News].
  exists (sort_desc (News w ++ [valid])).
  split; [reflexivity|]. split.
  - rewrite sort_desc_perm. by rewrite Permutation_app_comm.
  - by eapply submitted_record.
Qed.

(** ** The sync run on every upstream answer *)

Lemma manual_run eng cfg env w :
  get_api_fetch_news eng cfg env w =
  let hello := ConsoleLog "Fetching latest news..." in
  let fetch := AxiosGet (NEWS_ADDRESS cfg) in
  let failed (e : Error) := ConsoleErrorMessage "Error fetching news:" (message e) in
  let sorry := {| status := 500; payload := ErrorPayload "Failed to fetch news" |} in
  match axios_answer env with
  | inl e => (Return sorry, extended w (News w) [hello; fetch; failed e])
  | inr data =>
      match normalize eng data with
      | Throw e => (Return sorry, extended w (News w) [hello; fetch; failed e])
      | Return None =>
          (Return {| status := 404; payload := MessagePayload "No news found" |},
           extended w (News w) [hello; fetch])
      | Return (Some docs) =>
          match deleteMany_answer env with
          | Some e =>
              (Return sorry, extended w (News w) [hello; fetch; DeleteMany; failed e])
          | None =>
              match traverse (stored eng) docs with
              | Throw e =>
                  (Return sorry,
                   extended w [] [hello; fetch; DeleteMany; InsertMany docs; failed e])
              | Return valid =>
                  match insertMany_answer env with
                  | Some e =>
                      (Return sorry,
                       extended w [] [hello; fetch; DeleteMany; InsertMany docs; failed e])
                  | None =>
                      (Return {| status := 200;
                                 payload :=
                                   MessagePayload "News fetched and saved successfully!" |},
                       extended w valid [hello; fetch; DeleteMany; InsertMany docs])
                  end
              end
          end
      end
  end.
Proof.
  run_manual.
  destruct (axios_answer env) as [e|data]; [tidy; reflexivity|].
  destruct (normalize eng data) as [[docs|]|e]; try (tidy; reflexivity).
  destruct (deleteMany_answer env); [tidy; reflexivity|].
  destruct (traverse (stored eng) docs); [|tidy; reflexivity].
  destruct (insertMany_answer env); tidy; reflexivity.
Qed.

Lemma cron_run eng cfg env w :
  cron_fetch_news eng cfg env w =
  let hello := ConsoleLog "Running scheduled news update..." in
  let fetch := AxiosGet (NEWS_ADDRESS cfg) in
  let failed (e : Error) := ConsoleErrorMessage "Error fetching news:" (message e) in
  match axios_answer env with
  | inl e => (Return tt, extended w (News w) [hello; fetch; failed e])
  | inr data =>
      match normalize eng data with
      | Throw e => (Return tt, extended w (News w) [hello; fetch; failed e])
      | Return None =>
          (Return tt,
           extended w (News w) [hello; fetch; ConsoleLog "No new articles found."])
      | Return (Some docs) =>
          match deleteMany_answer env with
          | Some e =>
              (Return tt, extended w (News w) [hello; fetch; DeleteMany; failed e])
          | None =>
              match traverse (stored eng) docs with
              | Throw e =>
                  (Return tt,
                   extended w [] [hello; fetch; DeleteMany; InsertMany docs; failed e])
              | Return valid =>
                  match insertMany_answer env with
                  | Some e =>
                      (Return tt,
                       extended w [] [hello; fetch; DeleteMany; InsertMany docs; failed e])
                  | None =>
                      (Return tt,
                       extended w valid
                         [hello; fetch; DeleteMany; InsertMany docs;
                          ConsoleLog "News updated successfully!"])
                  end
              end
          end
      end
  end.
Proof.
  run_cron.
  destruct (axios_answer env) as [e|data]; [tidy; reflexivity|].
  destruct (normalize eng data) as [[docs|]|e]; try (tidy; reflexivity).
  destruct (deleteMany_answer env); [tidy; reflexivity|].
  destruct (traverse (stored eng) docs); [|tidy; reflexivity].
  destruct (insertMany_answer env); tidy; reflexivity.
Qed.

Lemma to_article_spec eng v :
  to_article eng v =
  match v with
  | JUndefined =>
      Throw (TypeError "Cannot read properties of undefined (reading 'title')")
  | JNull => Throw (TypeError "Cannot read properties of null (reading 'title')")
  | JObj o => mapped eng o
  | _ => mapped eng []
  end.
Proof. destruct v; reflexivity. Qed.

Lemma mapped_throws_iff eng (o : Obj) :
  (exists e, mapped eng o = Throw e) <-> convertible (own o "publishedAt") = false.
Proof.
  unfold mapped. split.
  - intros [e He]. destruct (convertible (own o "publishedAt")) eqn:Ec; [|reflexivity].
    destruct (newDate_returns (Date_parse eng) (Number_toString eng) _ Ec) as [d Hd].
    rewrite Hd in He. discriminate.
  - intros Hc.
    destruct (newDate_throws (Date_parse eng) (Number_toString eng) _ Hc) as [e ->].
    cbn. eauto.
Qed.

(** Property X8.
    Mapping an upstream entry throws exactly when the entry is [null] or
    [undefined], or is an object whose [publishedAt] has no primitive
    value. An entry that is no object at all (a number, a string, a
    boolean, a list) is taken without complaint and gives a document with
    every field unset and an invalid date. *)
Theorem entry_mapping_failures eng v :
  ((exists e, to_article eng v = Throw e) <->
   v = JUndefined \/ v = JNull \/
   exists o, v = JObj o /\ convertible (own o "publishedAt") = false) /\
  ((forall o, v <> JObj o) -> v <> JUndefined -> v <> JNull ->
     to_article eng v =
       Return {| title := JUndefined;
                 description := JUndefined;
                 url := JUndefined;
                 imageUrl := JUndefined;
                 publishedAt := InvalidDate |}).
Proof.
  rewrite to_article_spec. split; [split|].
  - intros [e He]. destruct v; try discriminate; auto.
    right. right. eexists. split; [reflexivity|].
    apply (proj1 (mapped_throws_iff eng _)). eauto.
  - intros [-> | [-> | (o & -> & Hc)]]; eauto.
    by apply (proj2 (mapped_throws_iff eng o)).
  - intros Hobj Hu Hn. destruct v; try reflexivity; congruence.
Qed.

Lemma traverse_throws_inv {A B} (f : A -> Outcome B) (l : list A) e :
  traverse f l = Throw e -> exists x e', In x l /\ f x = Throw e'.
Proof.
  revert e. induction l as [|y l IH]; intros e; [discriminate|].
  cbn [traverse]. destruct (f y) as [b|e0] eqn:Ey; cbn [and_then].
  - destruct (traverse f l) as [ys|e1] eqn:El; cbn [and_then]; [discriminate|].
    intros _. destruct (IH e1 eq_refl) as (x & e' & Hin & Hx).
    exists x, e'. split; [by right | done].
  - intros _. exists y, e0. split; [by left | done].
Qed.

Lemma throws_malformed eng data e :
  normalize eng data = Throw e -> Malformed data.
Proof.
  unfold normalize.
  destruct (prop data "articles") as [articles|e0] eqn:Ep; cbn [and_then].
  2: { intros _. apply NoBody. destruct data; try discriminate; auto. }
  unfold no_articles. destruct (truthy articles) eqn:Et; cbn [negb and_then].
  2: discriminate.
  destruct (prop articles "length") as [len|e1] eqn:El; cbn [and_then].
  2: { destruct articles; discriminate. }
  destruct (is_zero len) eqn:Ez; [discriminate|].
  assert (Hlen : forall len', prop articles "length" = Return len' -> is_zero len' = false).
  { intros len' Hl. rewrite El in Hl. by injection Hl as <-. }
  destruct articles as [| |b|z|s|items|o];
    try (intros _; eapply NotAList; [exact Ep | exact Et | discriminate | exact Hlen]).
  unfold array_map.
  destruct (traverse (to_article eng) items) as [docs|e1] eqn:Etr; cbn [and_then].
  { discriminate. }
  intros _. apply traverse_throws_inv in Etr as (x & e' & Hin & Hx).
  rewrite to_article_spec in Hx.
  destruct x as [| |b|n|s|l|o]; try discriminate.
  - eapply NullEntry; [exact Ep | auto].
  - eapply NullEntry; [exact Ep | auto].
  - eapply UnreadableDate; [exact Ep | exact Hin |].
    apply (proj1 (mapped_throws_iff eng o)). eauto.
Qed.

(** Two runs that left different traces are different runs. *)
Ltac traces_differ H :=
  first
    [ discriminate H
    | unfold extended in H; injection H; intros;
      repeat match goal with
             | Ht : (_ ++ _) = (_ ++ _) |- _ => apply app_inv_head in Ht; discriminate Ht
             end ].

(** Property X9.
    Given a fetched body, the manual trigger answers 500 before any store
    call exactly when the body is malformed: no body at all, an [articles]
    member that is present, non-empty and not a list, a list with a [null]
    entry, or a list with an entry whose timestamp has no primitive
    value. *)
Theorem body_failure_iff_malformed eng cfg env w data :
  axios_answer env = inr data ->
  (Malformed data <->
   exists msg,
     get_api_fetch_news eng cfg env w =
       (Return {| status := 500; payload := ErrorPayload "Failed to fetch news" |},
        extended w (News w)
          [ConsoleLog "Fetching latest news..."; AxiosGet (NEWS_ADDRESS cfg);
           ConsoleErrorMessage "Error fetching news:" msg])).
Proof.
  intros Hax. rewrite manual_run, Hax. cbv zeta. split.
  - intros Hbad. destruct (malformed_throws eng data Hbad) as [e ->]. eauto.
  - intros [msg Hrun].
    destruct (normalize eng data) as [[docs|]|e] eqn:En.
    + exfalso. destruct (deleteMany_answer env);
        [|destruct (traverse (stored eng) docs); [destruct (insertMany_answer env)|]];
        traces_differ Hrun.
    + discriminate.
    + eapply throws_malformed. exact En.
Qed.

Lemma normalize_none_iff eng data :
  normalize eng data = Return None <->
  exists articles,
    prop data "articles" = Return articles /\
    (truthy articles = false \/
     exists len, prop articles "length" = Return len /\ is_zero len = true).
Proof.
  unfold normalize. split.
  - destruct (prop data "articles") as [articles|e0] eqn:Ep; cbn [and_then]; [|discriminate].
    intros H. exists articles. split; [reflexivity|].
    unfold no_articles in H. destruct (truthy articles) eqn:Et; cbn [negb and_then] in H; [|auto].
    right. destruct (prop articles "length") as [len|e1] eqn:El; cbn [and_then] in H;
      [|discriminate].
    destruct (is_zero len) eqn:Ez; [eauto|].
    destruct (array_map _ articles _); discriminate.
  - intros (articles & -> & Hcase). cbn [and_then]. unfold no_articles.
    destruct (truthy articles) eqn:Et; cbn [negb and_then]; [|reflexivity].
    destruct Hcase as [? | (len & -> & Hz)]; [discriminate|].
    cbn [and_then]. rewrite Hz. reflexivity.
Qed.

(** Property X10.
    Given a fetched body, the run takes the no-news path, 404 on the manual
    trigger and a log line on the timer, with the store never called,
    exactly when the [articles] member is falsy (absent, [null], [false],
    zero, the empty string) or has a [length] that is zero. *)
Theorem no_news_iff_nothing_to_list eng cfg env w data :
  axios_answer env = inr data ->
  ((exists articles,
      prop data "articles" = Return articles /\
      (truthy articles = false \/
       exists len, prop articles "length" = Return len /\ is_zero len = true)) <->
   get_api_fetch_news eng cfg env w =
     (Return {| status := 404; payload := MessagePayload "No news found" |},
      extended w (News w)
        [ConsoleLog "Fetching latest news..."; AxiosGet (NEWS_ADDRESS cfg)])) /\
  ((exists articles,
      prop data "articles" = Return articles /\
      (truthy articles = false \/
       exists len, prop articles "length" = Return len /\ is_zero len = true)) <->
   cron_fetch_news eng cfg env w =
     (Return tt,
      extended w (News w)
        [ConsoleLog "Running scheduled news update..."; AxiosGet (NEWS_ADDRESS cfg);
         ConsoleLog "No new articles found."])).
Proof.
  intros Hax. rewrite <- (normalize_none_iff eng), manual_run, cron_run, Hax. cbv zeta.
  split; split.
  - intros ->. reflexivity.
  - destruct (normalize eng data) as [[docs|]|e]; [|done|discriminate].
    destruct (deleteMany_answer env);
      [|destruct (traverse (stored eng) docs); [destruct (insertMany_answer env)|]];
      discriminate.
  - intros ->. reflexivity.
  - destruct (normalize eng data) as [[docs|]|e]; [|done|].
    + destruct (deleteMany_answer env);
        [|destruct (traverse (stored eng) docs); [destruct (insertMany_answer env)|]];
        intros Hrun; traces_differ Hrun.
    + intros Hrun; traces_differ Hrun.
Qed.


(** Property X12.
    Every sync run, manual or scheduled, fetches exactly once and then
    calls the store in one of three ways: not at all, a delete alone, or a
    delete followed by one insert. There is no second fetch, and no insert
    that a delete did not precede. *)
Theorem sync_call_discipline eng cfg env w :
  exists added added',
    trace (snd (get_api_fetch_news eng cfg env w)) = trace w ++ added /\
    trace (snd (cron_fetch_news eng cfg env w)) = trace w ++ added' /\
    outside_calls added = outside_calls added' /\
    (outside_calls added = [AxiosGet (NEWS_ADDRESS cfg)] \/
     outside_calls added = [AxiosGet (NEWS_ADDRESS cfg); DeleteMany] \/
     exists docs,
       outside_calls added = [AxiosGet (NEWS_ADDRESS cfg); DeleteMany; InsertMany docs]).
Proof.
  rewrite manual_run, cron_run. cbv zeta.
  destruct (axios_answer env) as [e|data].
  { do 2 eexists. repeat split; [cbn; auto]. }
  destruct (normalize eng data) as [[docs|]|e].
  - destruct (deleteMany_answer env).
    { do 2 eexists. repeat split; [cbn; auto]. }
    destruct (traverse (stored eng) docs).
    2: { do 2 eexists; repeat split; cbn; eauto. }
    destruct (insertMany_answer env); do 2 eexists; repeat split; cbn; eauto.
  - do 2 eexists. repeat split; [cbn; auto].
  - do 2 eexists. repeat split; [cbn; auto].
Qed.

Ltac walk_store env :=
  cbv zeta;
  destruct (axios_answer env) as [?e|?data]; [reflexivity|];
  destruct (normalize _ _) as [[?docs|]|?e]; try reflexivity;
  destruct (deleteMany_answer env); [reflexivity|];
  destruct (traverse (stored _) _); [|reflexivity];
  destruct (insertMany_answer env); reflexivity.

Lemma manual_store eng cfg env w :
  News (snd (get_api_fetch_news eng cfg env w)) = sync_store eng env (News w).
Proof. rewrite manual_run. unfold sync_store. walk_store env. Qed.

Lemma cron_store eng cfg env w :
  News (snd (cron_fetch_news eng cfg env w)) = sync_store eng env (News w).
Proof. rewrite cron_run. unfold sync_store. walk_store env. Qed.

Lemma sync_store_twice eng env prior :
  sync_store eng env (sync_store eng env prior) = sync_store eng env prior.
Proof. unfold sync_store. walk_store env. Qed.

(** Property X13.
    A sync run repeated against the same answers of the outside leaves the
    collection as the first run left it, whichever trigger starts either
    run and whether the runs succeed or fail. *)
Theorem sync_is_idempotent eng cfg env w :
  let once := snd (get_api_fetch_news eng cfg env w) in
  let ticked := snd (cron_fetch_news eng cfg env w) in
  News (snd (get_api_fetch_news eng cfg env once)) = News once /\
  News (snd (cron_fetch_news eng cfg env once)) = News once /\
  News (snd (cron_fetch_news eng cfg env ticked)) = News ticked /\
  News (snd (get_api_fetch_news eng cfg env ticked)) = News ticked.
Proof.
  cbv zeta. rewrite !manual_store, !cron_store, !manual_store, !sync_store_twice.
  repeat split; reflexivity.
Qed.

Lemma healthy_tick eng cfg env valid w :
  healthy eng env valid ->
  News (snd (cron_fetch_news eng cfg env w)) =
    match valid with
    | [] => News w
    | _ :: _ => valid
    end.
Proof.
  intros (data & remote & Hax & Hdata & Hrep & Hdel & Hins).
  rewrite cron_store. unfold sync_store. rewrite Hax.
  unfold replacement in Hrep.
  destruct (traverse (mapped eng) remote) as [docs|e] eqn:Hdocs;
    cbn [and_then] in Hrep; [|discriminate].
  destruct remote as [|o remote].
  - rewrite (normalize_empty eng data Hdata).
    injection Hdocs as <-. injection Hrep as <-. reflexivity.
  - rewrite (normalize_carries eng data (o :: remote) docs Hdata); [|discriminate | exact Hdocs].
    rewrite Hdel, Hrep, Hins.
    pose proof (traverse_length _ _ _ Hrep) as Hl1.
    pose proof (traverse_length _ _ _ Hdocs) as Hl2.
    destruct valid; [cbn in *; congruence | reflexivity].
Qed.

Lemma cron_runs_snapshot eng cfg ticks feeds :
  Forall2 (healthy eng) ticks feeds ->
  forall w, News (cron_runs eng cfg ticks w) = latest_snapshot feeds (News w).
Proof.
  unfold cron_runs, latest_snapshot.
  induction 1 as [|env valid ticks feeds Hhealthy _ IH]; intros w; [reflexivity|].
  cbn [fold_left]. rewrite IH, (healthy_tick eng cfg env valid w Hhealthy).
  reflexivity.
Qed.

(** Property X14.
    Over any stretch of hourly ticks at which the news API answers with
    articles the schema accepts and the store accepts what it is asked,
    the collection is a snapshot and not a log: it holds the documents of
    the last feed that had an article, or what it held before if no feed
    had one. In particular a last feed with articles decides the
    collection alone. *)
Theorem timer_keeps_latest_snapshot eng cfg ticks feeds w :
  Forall2 (healthy eng) ticks feeds ->
  News (cron_runs eng cfg ticks w) = latest_snapshot feeds (News w) /\
  (forall earlier valid,
     feeds = earlier ++ [valid] -> valid <> [] ->
     News (cron_runs eng cfg ticks w) = valid).
Proof.
  intros Hhealthy. split; [by apply cron_runs_snapshot|].
  intros earlier valid -> Hne. rewrite (cron_runs_snapshot _ _ _ _ Hhealthy).
  unfold latest_snapshot. rewrite fold_left_app. cbn [fold_left].
  destruct valid; [congruence | reflexivity].
Qed.

(** Property X15.
    An article added through [POST /api/news] lives until the next sync
    run that replaces the collection: a healthy run whose feed gives
    documents drops it, a healthy run with an empty feed keeps it. *)
Theorem posted_article_lives_until_replaced eng cfg env req w token decoded valid :
  bearer_token req = Some token ->
  token <> "" ->
  verifyIdToken_answer env token = inr decoded ->
  stored eng (submitted env (body req)) = Return valid ->
  save_answer env = None ->
  (forall tick fresh,
     healthy eng tick fresh -> fresh <> [] ->
     News (snd (cron_fetch_news eng cfg tick (snd (post_api_news eng env req w)))) = fresh) /\
  (forall tick,
     healthy eng tick [] ->
     News (snd (cron_fetch_news eng cfg tick (snd (post_api_news eng env req w)))) =
       News w ++ [valid]).
Proof.
  intros Htok Hne Hok Hvalid Hsave.
  assert (Hposted : News (snd (post_api_news eng env req w)) = News w ++ [valid]).
  { rewrite post_api_news_run, Htok, Hok. cbv zeta. rewrite Hvalid, Hsave.
    apply String.eqb_neq in Hne. rewrite Hne. reflexivity. }
  split.
  - intros tick fresh Hhealthy Hfresh.
    rewrite (healthy_tick eng cfg tick fresh _ Hhealthy).
    destruct fresh; [congruence | reflexivity].
  - intros tick Hhealthy.
    rewrite (healthy_tick eng cfg tick [] _ Hhealthy). exact Hposted.
Qed.

(** ** The contact form on every request *)

Lemma world_eta w : extended w (News w) [] = w.
Proof. destruct w. unfold extended. cbn. by rewrite app_nil_r. Qed.

(** Property X16.
    [POST /send-message] never touches the collection and calls the relay
    at most once. It answers with 200, 400 or 500, except when a field is
    truthy and has no text: then it throws before the [try], sends no
    answer and has called nothing. A mail it hands over goes from and to
    the configured [EMAIL_USER]: the address in the request is never a
    recipient. *)
Theorem contact_form_outcomes eng cfg env req w :
  (exists res added,
     post_send_message eng cfg env req w = (Return res, extended w (News w) added) /\
     (status res = 200 \/ status res = 400 \/ status res = 500) /\
     (count_events is_relay_call added <= 1)%nat /\
     Forall (fun event =>
               match event with
               | SendMail options =>
                   mail_from options = EMAIL_USER cfg /\ mail_to options = EMAIL_USER cfg
               | _ => True
               end) added) \/
  (exists e,
     post_send_message eng cfg env req w = (Throw e, w) /\
     truthy (own (body req) "name") = true /\
     truthy (own (body req) "email") = true /\
     truthy (own (body req) "message") = true /\
     (convertible (own (body req) "name") = false \/
      convertible (own (body req) "email") = false \/
      convertible (own (body req) "message") = false)).
Proof.
  unfold post_send_message.
  destruct (truthy (own (body req) "name")) eqn:Hn; cbn [negb orb].
  2: { left. exists {| status := 400; payload := ErrorPayload "All fields are required." |}, [].
       unfold respond, ret. rewrite world_eta. repeat split; auto. }
  destruct (truthy (own (body req) "email")) eqn:He; cbn [negb orb].
  2: { left. exists {| status := 400; payload := ErrorPayload "All fields are required." |}, [].
       unfold respond, ret. rewrite world_eta. repeat split; auto. }
  destruct (truthy (own (body req) "message")) eqn:Hm; cbn [negb orb].
  2: { left. exists {| status := 400; payload := ErrorPayload "All fields are required." |}, [].
       unfold respond, ret. rewrite world_eta. repeat split; auto. }
  destruct (mail_for eng cfg _ _ _) as [options|e] eqn:Hmail.
  - left. unfold mail_for in Hmail.
    assert (Haddr : mail_from options = EMAIL_USER cfg /\ mail_to options = EMAIL_USER cfg).
    { destruct (ToString _ (own (body req) "name")); cbn [and_then] in Hmail; [|discriminate].
      destruct (ToString _ (own (body req) "email")); cbn [and_then] in Hmail; [|discriminate].
      destruct (ToString _ (own (body req) "message")); cbn [and_then] in Hmail;
        [|discriminate].
      injection Hmail as <-. split; reflexivity. }
    unfold sendMail, try_catch, bind, lift, emit, settle, respond, throw, ret.
    destruct (sendMail_answer env) as [e|]; cbn.
    + do 2 eexists. split.
      { unfold extended. cbn. rewrite <- app_assoc. reflexivity. }
      split; [auto|]. split; [cbn; lia|]. repeat constructor; apply Haddr.
    + do 2 eexists. split; [reflexivity|].
      split; [auto|]. split; [cbn; lia|]. repeat constructor; apply Haddr.
  - right. exists e. unfold bind, lift. split; [reflexivity|].
    repeat split.
    destruct (convertible (own (body req) "name")) eqn:Cn; [|auto].
    destruct (convertible (own (body req) "email")) eqn:Ce; [|auto].
    destruct (convertible (own (body req) "message")) eqn:Cm; [|auto].
    destruct (mail_for_convertible eng cfg _ _ _ Cn Ce Cm) as [options Hok].
    congruence.
Qed.

(** ** The further properties on the sample runs *)

Lemma token_is_second_word_witness :
  authorization posting_request = Some "Basic good-token extra" /\
  bearer_token posting_request = Some "good-token".
Proof.
  split; [reflexivity|].
  apply (token_is_second_word "Basic" "good-token" " extra" posting_request);
    [reflexivity | reflexivity | right; eexists; reflexivity | reflexivity].
Defined.

Lemma header_without_second_word_is_unauthorized_witness :
  verifyIdToken_answer env_quiet "good-token" = inr (JObj [("uid", JStr "u1")]) /\
  post_api_news sample_engine env_quiet bare_request sample_world =
    (Return {| status := 401; payload := ErrorPayload "Unauthorized" |}, sample_world).
Proof.
  split; [reflexivity|].
  apply (header_without_second_word_is_unauthorized env_quiet
           (post_api_news_handler sample_engine env_quiet) "good-token" bare_request
           sample_world);
    [left; reflexivity | reflexivity].
Defined.

Lemma verified_request_reaches_handler_witness :
  guarded env_quiet (post_api_news_handler sample_engine env_quiet) posting_request
    sample_world =
    post_api_news_handler sample_engine env_quiet
      (identified posting_request (JObj [("uid", JStr "u1")]))
      (extended sample_world (News sample_world) [VerifyIdToken "good-token"]).
Proof.
  destruct (verified_request_reaches_handler env_quiet
              (post_api_news_handler sample_engine env_quiet)
              posting_request sample_world "good-token" (JObj [("uid", JStr "u1")]))
    as (Hrun & _); [reflexivity | discriminate | reflexivity |].
  exact Hrun.
Defined.

Lemma rejected_save_is_reported_witness :
  fst (post_api_news sample_engine env_save_rejected (bearer "good-token" full_body)
         sample_world) =
    Return {| status := 500; payload := ErrorPayload "Failed to add news" |} /\
  News (snd (post_api_news sample_engine env_save_rejected (bearer "good-token" full_body)
               sample_world)) = [old_article].
Proof.
  rewrite (rejected_save_is_reported sample_engine env_save_rejected
             (bearer "good-token" full_body)
             sample_world "good-token" (JObj [("uid", JStr "u1")]) rejected);
    [split; reflexivity | reflexivity | discriminate | reflexivity | reflexivity].
Defined.

Lemma no_write_without_verification_witness :
  News (snd (post_api_news sample_engine env_locked (bearer "good-token" full_body)
               sample_world)) = [old_article].
Proof.
  destruct (no_write_without_verification sample_engine env_locked
              (bearer "good-token" full_body) sample_world) as (Hnews & _).
  { intros token. eexists. reflexivity. }
  exact Hnews.
Defined.

Lemma posted_article_is_listed_witness :
  exists listing,
    fst (get_api_news env_quiet
           (snd (post_api_news sample_engine env_quiet (bearer "good-token" number_title)
                   sample_world))) =
      Return {| status := 200; payload := NewsPayload listing |} /\
    listing ≡ₚ [submitted_number; old_article].
Proof.
  destruct (posted_article_is_listed sample_engine env_quiet env_quiet
              (bearer "good-token" number_title)
              sample_world "good-token" (JObj [("uid", JStr "u1")]) submitted_number)
    as (listing & Hrun & Hperm & _);
    [reflexivity | discriminate | reflexivity | reflexivity | reflexivity | reflexivity |].
  exists listing. split; [exact Hrun | exact Hperm].
Defined.

Lemma entry_mapping_failures_witness :
  to_article sample_engine (JNum (number_of_nat 7)) =
    Return {| title := JUndefined;
              description := JUndefined;
              url := JUndefined;
              imageUrl := JUndefined;
              publishedAt := InvalidDate |}.
Proof.
  destruct (entry_mapping_failures sample_engine (JNum (number_of_nat 7))) as [_ Hplain].
  apply Hplain; discriminate.
Defined.

Lemma body_failure_iff_malformed_witness :
  Malformed unreadable_feed /\
  fst (get_api_fetch_news sample_engine sample_cfg env_unreadable sample_world) =
    Return {| status := 500; payload := ErrorPayload "Failed to fetch news" |} /\
  News (snd (get_api_fetch_news sample_engine sample_cfg env_unreadable sample_world)) =
    [old_article].
Proof.
  assert (Hbad : Malformed unreadable_feed).
  { eapply UnreadableDate; [reflexivity | left; reflexivity | reflexivity]. }
  split; [exact Hbad|].
  destruct (body_failure_iff_malformed sample_engine sample_cfg env_unreadable
              sample_world unreadable_feed eq_refl) as [Hthen _].
  destruct (Hthen Hbad) as [msg Hrun]. rewrite Hrun. split; reflexivity.
Defined.

Lemma no_news_iff_nothing_to_list_witness :
  get_api_fetch_news sample_engine sample_cfg env_text_body sample_world =
    (Return {| status := 404; payload := MessagePayload "No news found" |},
     extended sample_world (News sample_world)
       [ConsoleLog "Fetching latest news..."; AxiosGet (NEWS_ADDRESS sample_cfg)]).
Proof.
  destruct (no_news_iff_nothing_to_list sample_engine sample_cfg env_text_body sample_world
              (JStr "<html>Service unavailable</html>") eq_refl) as [[Hthen _] _].
  apply Hthen. exists JUndefined. split; [reflexivity | left; reflexivity].
Defined.

Lemma timer_keeps_latest_snapshot_witness :
  healthy sample_engine env_synced [first_doc; second_doc] /\
  healthy sample_engine env_empty_feed [] /\
  News (cron_runs sample_engine sample_cfg [env_one_article; env_synced; env_empty_feed]
          sample_world) = [first_doc; second_doc].
Proof.
  assert (H1 : healthy sample_engine env_one_article [first_doc]).
  { exists one_feed, [first_remote]. repeat split; reflexivity. }
  assert (H2 : healthy sample_engine env_synced [first_doc; second_doc]).
  { exists two_feed, [first_remote; second_remote]. repeat split; reflexivity. }
  assert (H3 : healthy sample_engine env_empty_feed []).
  { exists (sample_feed []), []. repeat split; reflexivity. }
  split; [exact H2|]. split; [exact H3|].
  destruct (timer_keeps_latest_snapshot sample_engine sample_cfg
              [env_one_article; env_synced; env_empty_feed]
              [[first_doc]; [first_doc; second_doc]; []] sample_world)
    as [Hsnap _].
  { repeat constructor; assumption. }
  rewrite Hsnap. reflexivity.
Defined.

Lemma posted_article_lives_until_replaced_witness :
  News (snd (cron_fetch_news sample_engine sample_cfg env_one_article
               (snd (post_api_news sample_engine env_quiet
                       (bearer "good-token" number_title) sample_world)))) =
    [first_doc] /\
  News (snd (cron_fetch_news sample_engine sample_cfg env_empty_feed
               (snd (post_api_news sample_engine env_quiet
                       (bearer "good-token" number_title) sample_world)))) =
    [old_article; submitted_number].
Proof.
  destruct (posted_article_lives_until_replaced sample_engine sample_cfg env_quiet
              (bearer "good-token" number_title) sample_world "good-token"
              (JObj [("uid", JStr "u1")]) submitted_number) as [Hdrop Hkeep];
    [reflexivity | discriminate | reflexivity | reflexivity | reflexivity |].
  split.
  - apply (Hdrop env_one_article [first_doc]); [|discriminate].
    exists one_feed, [first_remote]. repeat split; reflexivity.
  - apply (Hkeep env_empty_feed). exists (sample_feed []), []. repeat split; reflexivity.
Defined.
